(** * Dashboard de Casos: loader, KPI metrics and top-5 aggregation

    A shallow embedding of [src/app.py].  The program is a Streamlit page
    over pandas; the parts with decisions in them are

    - [load_data]        (lines 43-93): file discovery, CSV normalisation,
    - [get_kpi_metrics]  (lines 95-143): the KPI records,
    - the two pie aggregations (lines 234-248 and 276-290),
    - the page itself     (lines 146-310): what is shown, where, and what
      the handler of the script catches.

    pandas objects are modelled by what the program observes of them: a
    frame is a row index and an ordered list of labelled, typed columns; a
    missing value ([NaN], [NaT], [None]) is [None].  Python exceptions are
    values of an error monad.  Floating point numbers are modelled by exact
    rationals (and exact square roots), so the statements about means and
    deviations are statements about the exact values; the wall clock read by
    [pd.Timestamp.now()] is an explicit argument. *)

From Stdlib Require Import QArith Qround Qabs Qcanon Lqa String Ascii.
From stdpp Require Import list numbers sorting.

Local Open Scope Z_scope.
Local Open Scope list_scope.

(* ================================================================== *)
(** * Python strings *)
(* ================================================================== *)

(** A Python [str] is a sequence of Unicode code points: [len], slicing
    and [strip] all count code points, not bytes. *)
Abbreviation pystr := (list N).

Module Py.

(** Continuation byte of a UTF-8 sequence. *)
Definition cont (c : ascii) : N := (N_of_ascii c - 128)%N.

(** Literals of the source file are written as UTF-8 text and decoded to
    code points. *)
Fixpoint lit (s : string) : pystr :=
  match s with
  | EmptyString => []
  | String c s1 =>
    let b := N_of_ascii c in
    if (b <? 128)%N then b :: lit s1
    else if (b <? 224)%N then
      match s1 with
      | String c1 s2 => ((b - 192) * 64 + cont c1)%N :: lit s2
      | _ => []
      end
    else if (b <? 240)%N then
      match s1 with
      | String c1 (String c2 s3) =>
        ((b - 224) * 4096 + cont c1 * 64 + cont c2)%N :: lit s3
      | _ => []
      end
    else
      match s1 with
      | String c1 (String c2 (String c3 s4)) =>
        ((b - 240) * 262144 + cont c1 * 4096 + cont c2 * 64 + cont c3)%N
          :: lit s4
      | _ => []
      end
  end.

(** [str.isspace] on one character: the code points Python treats as
    whitespace, which are the ones [str.strip()] removes. *)
Definition isspace (c : N) : bool :=
  ((9 <=? c) && (c <=? 13) || (28 <=? c) && (c <=? 32)
   || (c =? 133) || (c =? 160) || (c =? 5760)
   || (8192 <=? c) && (c <=? 8202)
   || (c =? 8232) || (c =? 8233) || (c =? 8239) || (c =? 8287)
   || (c =? 12288))%N.

Fixpoint lstrip (s : pystr) : pystr :=
  match s with
  | c :: s' => if isspace c then lstrip s' else s
  | [] => []
  end.

Definition rstrip (s : pystr) : pystr := reverse (lstrip (reverse s)).

(** [s.strip()] *)
Definition strip (s : pystr) : pystr := rstrip (lstrip s).

Fixpoint uint_codes (d : Decimal.uint) : pystr :=
  match d with
  | Decimal.Nil => []
  | Decimal.D0 d => 48%N :: uint_codes d
  | Decimal.D1 d => 49%N :: uint_codes d
  | Decimal.D2 d => 50%N :: uint_codes d
  | Decimal.D3 d => 51%N :: uint_codes d
  | Decimal.D4 d => 52%N :: uint_codes d
  | Decimal.D5 d => 53%N :: uint_codes d
  | Decimal.D6 d => 54%N :: uint_codes d
  | Decimal.D7 d => 55%N :: uint_codes d
  | Decimal.D8 d => 56%N :: uint_codes d
  | Decimal.D9 d => 57%N :: uint_codes d
  end.

(** [str(n)] for a non-negative [int]. *)
Definition str_nat (n : N) : pystr := uint_codes (N.to_uint n).

(** [str(z)] for an [int]. *)
Definition str_int (z : Z) : pystr :=
  if z <? 0 then 45%N :: str_nat (Z.to_N (- z)) else str_nat (Z.to_N z).

(** Lexicographic order on strings, [s <= t] in Python. *)
Fixpoint leb (s t : pystr) : bool :=
  match s, t with
  | [], _ => true
  | _ :: _, [] => false
  | a :: s', b :: t' => (a <? b)%N || (a =? b)%N && leb s' t'
  end.

End Py.

Definition py (s : string) : pystr := Py.lit s.
Arguments py : simpl never.

(* ================================================================== *)
(** * Numbers and their formatting *)
(* ================================================================== *)

(** The value of a [float] expression of the program: [nan], an exact
    rational, or the non-negative square root of a rational (the result of
    [std]). *)
Inductive pyfloat :=
| fnan
| frat (q : Q)
| fsqrt (v : Q).

Module Fmt.

(** Round to the nearest integer, ties to even. *)
Definition round_half_even (y : Q) : Z :=
  let f := Qfloor y in
  match (y - inject_Z f ?= 1 # 2)%Q with
  | Lt => f
  | Gt => f + 1
  | Eq => if Z.even f then f else f + 1
  end.

(** The number of tenths nearest to [q]. *)
Definition tenths (q : Q) : Z := round_half_even (10 * q)%Q.

(** The number of tenths nearest to the square root of [v]:
    [k - 1/2 <= 10 * sqrt v] iff [(2k - 1)^2 <= 400 v]. *)
Definition tenths_sqrt (v : Q) : Z :=
  let w := (400 * v)%Q in
  let s := Z.sqrt (Qfloor w) in
  let k := (s + 1) / 2 in
  if Z.odd s && Qeq_bool w (inject_Z (s * s)) && Z.odd k then k - 1 else k.

(** [d.d]-rendering of a number of tenths with its sign. *)
Definition render (neg : bool) (k : Z) : pystr :=
  (if neg then [45%N] else [])
    ++ Py.str_nat (Z.to_N (Z.abs k / 10)) ++ [46%N]
    ++ Py.str_nat (Z.to_N (Z.abs k mod 10)).

(** [f"{x:.1f}"] *)
Definition fmt1 (x : pyfloat) : pystr :=
  match x with
  | fnan => py "nan"
  | frat q => render (Qle_bool q 0 && negb (Qeq_bool q 0)) (tenths q)
  | fsqrt v => render false (tenths_sqrt v)
  end.

End Fmt.

(* ================================================================== *)
(** * Exceptions *)
(* ================================================================== *)

Inductive exn_class :=
| KeyError | IndexError | TypeError | ValueError | AttributeError
| OtherError.

(** An exception instance: its class and [str(e)].  Every exception of the
    model derives from [Exception].  The text of an exception raised inside
    pandas is given in short; the statements below use only the class,
    and [str(e)] of what [read_csv] raises. *)
Record exn := Exn { exn_class_of : exn_class; exn_str : pystr }.

Inductive result (A : Type) :=
| Ok (a : A)
| Raise (e : exn).
Arguments Ok {A} a.
Arguments Raise {A} e.

#[global] Instance result_ret : MRet result := @Ok.
#[global] Instance result_bind : MBind result := fun A B f m =>
  match m with
  | Ok a => f a
  | Raise e => Raise e
  end.
#[global] Instance result_fmap : FMap result := fun A B f m =>
  match m with
  | Ok a => Ok (f a)
  | Raise e => Raise e
  end.

(** A loop whose body may raise. *)
Fixpoint for_each {A S : Type} (body : S -> A -> result S) (s : S)
    (l : list A) : result S :=
  match l with
  | [] => Ok s
  | x :: l' => s' ← body s x; for_each body s' l'
  end.

(* ================================================================== *)
(** * Stable sorting *)
(* ================================================================== *)

Section sort_by.
Context {A : Type} (le : A -> A -> bool).

(** [x] goes in front of the first element it is below: among equal
    keys the element inserted last, the earlier one of the input, comes
    first. *)
Fixpoint insert_sorted (x : A) (l : list A) : list A :=
  match l with
  | [] => [x]
  | y :: l' => if le x y then x :: l else y :: insert_sorted x l'
  end.

Fixpoint sort_by (l : list A) : list A :=
  match l with
  | [] => []
  | x :: l' => insert_sorted x (sort_by l')
  end.
End sort_by.

(** Positions of [keys] in sorted order. *)
Definition argsort {K : Type} (le : K -> K -> bool) (keys : list K)
  : list nat :=
  (sort_by (fun a b => le a.2 b.2) (zip (seq 0 (length keys)) keys)).*1.

(** Missing keys go last ([na_position='last']). *)
Definition na_last_le {K : Type} (le : K -> K -> bool) (a b : option K)
  : bool :=
  match a, b with
  | Some x, Some y => le x y
  | _, None => true
  | None, Some _ => false
  end.

(* ================================================================== *)
(** * Series and frames *)
(* ================================================================== *)

(** A column with its dtype: [float64]/[int64] numbers, [datetime64[ns]]
    instants (nanoseconds since the epoch) or [object] cells holding text.
    [None] is the missing value of the dtype. *)
Inductive Series :=
| NumSeries (xs : list (option Q))
| DateSeries (xs : list (option Z))
| ObjSeries (xs : list (option pystr)).

Definition series_len (s : Series) : nat :=
  match s with
  | NumSeries xs => length xs
  | DateSeries xs => length xs
  | ObjSeries xs => length xs
  end.

Definition is_object (s : Series) : bool :=
  match s with ObjSeries _ => true | _ => false end.

(** An ordered list of labelled columns over a row index. *)
Record DataFrame := {
  index : list Z;
  columns : list (pystr * Series)
}.

(** [len(df)] *)
Definition len (df : DataFrame) : nat := length (index df).

(** [pd.DataFrame()] *)
Definition empty_frame : DataFrame := {| index := []; columns := [] |}.

(** Every column has one cell per row. *)
Definition wf (df : DataFrame) : Prop :=
  Forall (fun c => series_len c.2 = len df) (columns df).

(** [name in df.columns] *)
Definition contains (df : DataFrame) (name : pystr) : bool :=
  bool_decide (name ∈ (columns df).*1).

(** [df[name]] is a series when one column carries the label and a frame
    when several do. *)
Inductive Item :=
| ItemSeries (s : Series)
| ItemFrame (cols : list Series).

Definition getitem (df : DataFrame) (name : pystr) : result Item :=
  match filter (fun c => c.1 = name) (columns df) with
  | [] => Raise (Exn KeyError name)
  | [c] => Ok (ItemSeries c.2)
  | cs => Ok (ItemFrame cs.*2)
  end.

(** [df[name] = s]: replaces the column(s) labelled [name] in place, or
    appends a new column. *)
Definition setitem (df : DataFrame) (name : pystr) (s : Series)
  : DataFrame :=
  {| index := index df;
     columns :=
       if contains df name
       then (fun c => if decide (c.1 = name) then (name, s) else c)
              <$> columns df
       else columns df ++ [(name, s)] |}.

(** [df.columns = df.columns.str.strip()] *)
Definition strip_columns (df : DataFrame) : DataFrame :=
  {| index := index df;
     columns := (fun c => (Py.strip c.1, c.2)) <$> columns df |}.

(** Labels of the frame [df.select_dtypes(include=['object'])], in the
    order a [for] loop over it yields them. *)
Definition select_dtypes_object (df : DataFrame) : list pystr :=
  (filter (fun c => is_object c.2 = true) (columns df)).*1.

Definition take_at {A : Type} `{Inhabited A} (order : list nat) (l : list A)
  : list A :=
  (fun i => l !!! i) <$> order.

Definition series_take (order : list nat) (s : Series) : Series :=
  match s with
  | NumSeries xs => NumSeries (take_at order xs)
  | DateSeries xs => DateSeries (take_at order xs)
  | ObjSeries xs => ObjSeries (take_at order xs)
  end.

(** The rows at positions [order], in that order. *)
Definition take_rows (order : list nat) (df : DataFrame) : DataFrame :=
  {| index := take_at order (index df);
     columns := (fun c => (c.1, series_take order c.2)) <$> columns df |}.

Definition series_argsort (s : Series) : list nat :=
  match s with
  | NumSeries xs => argsort (na_last_le Qle_bool) xs
  | DateSeries xs => argsort (na_last_le Z.leb) xs
  | ObjSeries xs => argsort (na_last_le Py.leb) xs
  end.

(** [df.sort_values(name)]: ascending, missing keys last.  numpy's
    quicksort leaves the order of rows with equal keys open; the model
    keeps them in their original order. *)
Definition sort_values (df : DataFrame) (name : pystr)
  : result DataFrame :=
  col ← getitem df name;
  match col with
  | ItemSeries s => Ok (take_rows (series_argsort s) df)
  | ItemFrame _ =>
    Raise (Exn ValueError
             (py "The column label '" ++ name ++ py "' is not unique."))
  end.

(** Rows of a list selected by a boolean mask. *)
Definition mask_filter {A : Type} (mask : list bool) (l : list A)
  : list A :=
  (filter (fun p => p.1 = true) (zip mask l)).*2.

Definition series_mask (mask : list bool) (s : Series) : Series :=
  match s with
  | NumSeries xs => NumSeries (mask_filter mask xs)
  | DateSeries xs => DateSeries (mask_filter mask xs)
  | ObjSeries xs => ObjSeries (mask_filter mask xs)
  end.

(** [df[mask]] for a boolean series [mask]. *)
Definition getitem_mask (df : DataFrame) (mask : list bool) : DataFrame :=
  {| index := mask_filter mask (index df);
     columns := (fun c => (c.1, series_mask mask c.2)) <$> columns df |}.

(* ================================================================== *)
(** * pandas conversions and statistics *)
(* ================================================================== *)

(** What pandas does to one cell when it converts text or numbers; the
    program only fixes [errors='coerce'], under which a cell that does not
    convert becomes missing. *)
Record Parsers := {
  (** [pd.to_numeric] on one text cell *)
  parse_numeric : pystr -> option Q;
  (** [pd.to_datetime] on one text cell *)
  parse_datetime : pystr -> option Z;
  (** [pd.to_datetime] on one number *)
  datetime_of_number : Q -> option Z;
  (** [str(x)] of a numeric label *)
  str_of_number : Q -> pystr;
  (** [str(t)] of a [Timestamp] *)
  str_of_timestamp : Z -> pystr
}.

(** [NaT] seen as an [int64]. *)
Definition iNaT : Z := - 2 ^ 63.

(** Sum of the cells with the missing ones replaced by [0]. *)
Definition nansum (xs : list (option Q)) : Q :=
  foldr Qplus 0%Q (default 0%Q <$> xs).

(** Number of cells that are not missing. *)
Definition notna_count {A : Type} (xs : list (option A)) : nat :=
  length (filter is_Some xs).

Definition Q_of_nat (n : nat) : Q := inject_Z (Z.of_nat n).

(** [nanops.nanmean]: missing cells are skipped; no cell left gives
    [nan]. *)
Definition nanmean (xs : list (option Q)) : pyfloat :=
  let count := notna_count xs in
  let the_sum := nansum xs in
  if (count =? 0)%nat then fnan else frat (the_sum / Q_of_nat count).

(** [nanops.nanvar] with [ddof=1]: [None] when [count <= ddof]. *)
Definition nanvar (xs : list (option Q)) : option Q :=
  let count := notna_count xs in
  if (count <=? 1)%nat then None
  else
    let avg := (nansum xs / Q_of_nat count)%Q in
    let sqr := (fun x => match x with
                         | Some v => ((avg - v) * (avg - v))%Q
                         | None => 0%Q
                         end) <$> xs in
    Some (foldr Qplus 0 sqr / Q_of_nat (count - 1))%Q.

(** [nanops.nanstd] *)
Definition nanstd (xs : list (option Q)) : pyfloat :=
  match nanvar xs with
  | Some v => fsqrt v
  | None => fnan
  end.

(** Number of occurrences of [x]. *)
Definition count {A : Type} `{EqDecision A} (x : A) (l : list A) : nat :=
  length (filter (fun y => y = x) l).

(** Distinct values with their counts, in order of first occurrence. *)
Fixpoint tally {A : Type} `{EqDecision A} (l : list A) : list (A * nat) :=
  match l with
  | [] => []
  | x :: l' => (x, S (count x l')) :: filter (fun e => e.1 <> x) (tally l')
  end.

(** [s.value_counts()]: missing cells dropped, counts descending.  pandas
    leaves the order of equal counts to its sort; the model takes the
    order the specification documents for it, first occurrence in the
    column. *)
Definition value_counts {A : Type} `{EqDecision A} (xs : list (option A))
  : list (A * nat) :=
  sort_by (fun a b => (b.2 <=? a.2)%nat) (tally (omap id xs)).

Section pandas.
Variable P : Parsers.

(** [pd.to_numeric(col, errors='coerce')] *)
Definition to_numeric (col : Item) : result Series :=
  match col with
  | ItemSeries (NumSeries xs) => Ok (NumSeries xs)
  | ItemSeries (ObjSeries xs) =>
    Ok (NumSeries ((fun c => c ≫= parse_numeric P) <$> xs))
  | ItemSeries (DateSeries xs) =>
    Ok (NumSeries ((fun c => Some (inject_Z (default iNaT c))) <$> xs))
  | ItemFrame _ =>
    Raise (Exn TypeError
             (py "arg must be a list, tuple, 1-d array, or Series"))
  end.

(** [pd.to_datetime(col, errors='coerce')] *)
Definition to_datetime (col : Item) : result Series :=
  match col with
  | ItemSeries (DateSeries xs) => Ok (DateSeries xs)
  | ItemSeries (ObjSeries xs) =>
    Ok (DateSeries ((fun c => c ≫= parse_datetime P) <$> xs))
  | ItemSeries (NumSeries xs) =>
    Ok (DateSeries ((fun c => c ≫= datetime_of_number P) <$> xs))
  | ItemFrame _ =>
    Raise (Exn ValueError
             (py "to assemble mappings requires at least that [year, month, day] be specified"))
  end.

(** A label of a frequency table as [str] shows it. *)
Inductive label :=
| LNum (q : Q)
| LDate (t : Z)
| LStr (s : pystr).

Definition str_label (l : label) : pystr :=
  match l with
  | LNum q => str_of_number P q
  | LDate t => str_of_timestamp P t
  | LStr s => s
  end.

Definition map_fst {A B C : Type} (f : A -> B) (l : list (A * C))
  : list (B * C) :=
  (fun e => (f e.1, e.2)) <$> l.

(** [col.value_counts()]; equal numbers are one label. *)
Definition series_value_counts (col : Item) : result (list (label * nat)) :=
  match col with
  | ItemSeries (ObjSeries xs) => Ok (map_fst LStr (value_counts xs))
  | ItemSeries (DateSeries xs) => Ok (map_fst LDate (value_counts xs))
  | ItemSeries (NumSeries xs) =>
    Ok (map_fst (fun q : Qc => LNum (this q))
          (value_counts ((fun c : option Q => Q2Qc <$> c) <$> xs)))
  | ItemFrame _ =>
    Raise (Exn ValueError (py "Grouper not 1-dimensional"))
  end.
End pandas.

(* ================================================================== *)
(** * The program *)
(* ================================================================== *)

Definition Duracion : pystr := py "Duración".
Definition Fecha_Limite : pystr := py "Fecha Límite".
Definition Actuacion : pystr := py "Actuación".
Definition No_especificado : pystr := py "No especificado".

(** ** [load_data] *)

(** What one call of [load_data] finds outside the program: the two
    directory listings, the readers, and the random sample frame of the
    last branch. *)
Record Env := {
  csv_files : list pystr;
  read_csv : pystr -> result DataFrame;
  json_files : list pystr;
  read_json : pystr -> result DataFrame;
  sample : DataFrame
}.

(** [df[col] = df[col].fillna('No especificado')] *)
Definition fillna_step (df : DataFrame) (col : pystr) : result DataFrame :=
  item ← getitem df col;
  match item with
  | ItemSeries (ObjSeries xs) =>
    Ok (setitem df col
          (ObjSeries ((fun c => Some (default No_especificado c)) <$> xs)))
  | ItemSeries _ =>
    (* not reached: the loop ranges over the text columns *)
    Ok df
  | ItemFrame _ =>
    (* several columns carry the label: the fill goes through on the
       sub-frame, whose cells are not followed any further since [.str]
       raises on it in the next loop *)
    Ok df
  end.

(** [df[col] = df[col].str.strip()] *)
Definition strip_step (df : DataFrame) (col : pystr) : result DataFrame :=
  item ← getitem df col;
  match item with
  | ItemSeries (ObjSeries xs) =>
    Ok (setitem df col
          (ObjSeries ((fun c : option pystr => Py.strip <$> c) <$> xs)))
  | ItemSeries _ =>
    Raise (Exn AttributeError
             (py "Can only use .str accessor with string values!"))
  | ItemFrame _ =>
    Raise (Exn AttributeError
             (py "'DataFrame' object has no attribute 'str'"))
  end.

Section program.
Variable P : Parsers.

(** Lines 57-77: the normalisation of a frame read from CSV. *)
Definition normalise (df : DataFrame) : result DataFrame :=
  let df := strip_columns df in
  df ← (if contains df Duracion then
          col ← getitem df Duracion;
          s ← to_numeric P col;
          Ok (setitem df Duracion s)
        else Ok df);
  df ← (if contains df Fecha_Limite then
          col ← getitem df Fecha_Limite;
          s ← to_datetime P col;
          sort_values (setitem df Fecha_Limite s) Fecha_Limite
        else Ok df);
  df ← for_each fillna_step df (select_dtypes_object df);
  df ← for_each strip_step df (select_dtypes_object df);
  Ok df.

(** The [try] block, lines 50-77; [None] when it falls through. *)
Definition try_csv (env : Env) : result (option DataFrame) :=
  match csv_files env with
  | f :: _ =>
    df ← read_csv env f;
    df ← normalise df;
    Ok (Some df)
  | [] => Ok None
  end.

(** One uncached call: the messages given to [st.error] and the value
    returned or the exception propagated. *)
Definition load_data (env : Env) : list pystr * result DataFrame :=
  match try_csv env with
  | Ok (Some df) => ([], Ok df)
  | Raise e =>
    ([py "Error al cargar el archivo: " ++ exn_str e], Ok empty_frame)
  | Ok None =>
    match json_files env with
    | f :: _ => ([], read_json env f)
    | [] => ([], Ok (sample env))
    end
  end.

(** ** [get_kpi_metrics] *)

Inductive kpi_value :=
| VInt (n : Z)
| VStr (s : pystr).

Record KPI := {
  title : pystr;
  value : kpi_value;
  delta : pystr;
  help : pystr
}.

(** [col.mean()] where the program goes on to format it with [.1f]: a
    number for a numeric column.  Text does not average, and the mean of
    instants or of a sub-frame is not a number the format accepts. *)
Definition series_mean (col : Item) : result pyfloat :=
  match col with
  | ItemSeries (NumSeries xs) => Ok (nanmean xs)
  | _ => Raise (Exn TypeError (py "unsupported format string"))
  end.

(** [col.std()] *)
Definition series_std (col : Item) : result pyfloat :=
  match col with
  | ItemSeries (NumSeries xs) => Ok (nanstd xs)
  | _ => Raise (Exn TypeError (py "unsupported format string"))
  end.

(** [pd.Timedelta(days=30)] in nanoseconds. *)
Definition days30 : Z := 30 * 86400 * 1000000000.

(** [col.between(left, right)]: both ends inclusive, [NaT] is outside. *)
Definition between (col : Item) (left right : Z) : result (list bool) :=
  match col with
  | ItemSeries (DateSeries xs) =>
    Ok ((fun c => match c with
                  | Some t => (left <=? t) && (t <=? right)
                  | None => false
                  end) <$> xs)
  | ItemSeries _ =>
    Raise (Exn TypeError (py "Invalid comparison with Timestamp"))
  | ItemFrame _ =>
    Raise (Exn AttributeError
             (py "'DataFrame' object has no attribute 'between'"))
  end.

(** [.iloc[0]] and [.index[0]] of a frequency table. *)
Definition iloc0 (vc : list (label * nat)) : result nat :=
  match vc with
  | e :: _ => Ok e.2
  | [] =>
    Raise (Exn IndexError (py "single positional indexer is out-of-bounds"))
  end.

Definition index0 (vc : list (label * nat)) : result label :=
  match vc with
  | e :: _ => Ok e.1
  | [] =>
    Raise (Exn IndexError
             (py "index 0 is out of bounds for axis 0 with size 0"))
  end.

Definition get_kpi_metrics (now : Z) (df : DataFrame)
  : result (list KPI) :=
  let kpis := [] in
  (* Total de casos *)
  let total_casos := len df in
  let kpis := kpis ++ [
    {| title := py "Total de Casos";
       value := VInt (Z.of_nat total_casos);
       delta := py "casos registrados";
       help := py "Número total de casos en el sistema" |} ] in
  (* Métrica de Duración *)
  kpis ← (if contains df Duracion then
            col ← getitem df Duracion;
            duracion_media ← series_mean col;
            duracion_std ← series_std col;
            Ok (kpis ++ [
              {| title := py "Duración Promedio";
                 value := VStr (Fmt.fmt1 duracion_media);
                 delta := py "±" ++ Fmt.fmt1 duracion_std ++ py " días";
                 help := py "Promedio y desviación estándar de la duración de los casos" |} ])
          else Ok kpis);
  (* Próximos vencimientos (próximos 30 días) *)
  kpis ← (if contains df Fecha_Limite then
            let today := now in
            col ← getitem df Fecha_Limite;
            mask ← between col today (today + days30);
            let proximos := getitem_mask df mask in
            Ok (kpis ++ [
              {| title := py "Próximos Vencimientos";
                 value := VInt (Z.of_nat (len proximos));
                 delta := py "en los próximos 30 días";
                 help := py "Casos que vencen en los próximos 30 días" |} ])
          else Ok kpis);
  (* Top actuaciones *)
  kpis ← (if contains df Actuacion then
            col ← getitem df Actuacion;
            vc ← series_value_counts col;
            top_actuacion ← iloc0 vc;
            top_actuacion_nombre ← index0 vc;
            let name := str_label P top_actuacion_nombre in
            Ok (kpis ++ [
              {| title := py "Actuación más Común";
                 value := VStr (if (20 <? length name)%nat
                                then take 20 name ++ py "..."
                                else name);
                 delta := Py.str_nat (N.of_nat top_actuacion) ++ py " casos";
                 help := py "Tipo de actuación más frecuente" |} ])
          else Ok kpis);
  Ok kpis.
End program.

(** ** The pie aggregations, lines 235-242 and 277-284 *)

(** [final_counts] for the cells of the chosen text column. *)
Definition final_counts (col : list (option pystr)) : list (pystr * nat) :=
  let value_counts := value_counts col in
  (* Separar top 5 y agrupar el resto *)
  let top_5 := take 5 value_counts in
  let others :=
    if (5 <? length value_counts)%nat
    then [(py "Otros", sum_list (drop 5 value_counts).*2)]
    else [] in
  (* Combinar top 5 y otros *)
  top_5 ++ others.

(* ================================================================== *)
(** * A concrete instance of the conversions *)
(* ================================================================== *)

(** Conversions that read plain runs of decimal digits, to run the
    program on concrete tables. *)
Module Plain.

Fixpoint digits (acc : N) (s : pystr) : option N :=
  match s with
  | [] => Some acc
  | c :: s' =>
    if ((48 <=? c) && (c <=? 57))%N
    then digits (acc * 10 + (c - 48)) s'
    else None
  end.

Definition number (s : pystr) : option N :=
  match Py.strip s with
  | [] => None
  | t => digits 0 t
  end.

Definition parsers : Parsers := {|
  parse_numeric s := (fun n => inject_Z (Z.of_N n)) <$> number s;
  parse_datetime s := Z.of_N <$> number s;
  datetime_of_number q := Some (Qfloor q);
  str_of_number q := Py.str_int (Qfloor q);
  str_of_timestamp t := Py.str_int t
|}.

End Plain.

(* ================================================================== *)
(** * Notions used in the statements, and tables to run the program on *)
(* ================================================================== *)

(** Number of distinct values among the cells that are not missing. *)
Definition distinct_values {A : Type} `{EqDecision A}
    (xs : list (option A)) : nat :=
  length (remove_dups (omap id xs)).


(** Six distinct values, one row each. *)
Definition six_values : list (option pystr) :=
  Some <$> [py "a"; py "b"; py "c"; py "d"; py "e"; py "f"].

(** Six distinct values and one missing cell. *)
Definition six_values_and_a_gap : list (option pystr) := six_values ++ [None].

Definition total_kpi (n : nat) : KPI :=
  {| title := py "Total de Casos";
     value := VInt (Z.of_nat n);
     delta := py "casos registrados";
     help := py "Número total de casos en el sistema" |}.

Definition duracion_kpi (media std : pyfloat) : KPI :=
  {| title := py "Duración Promedio";
     value := VStr (Fmt.fmt1 media);
     delta := py "±" ++ Fmt.fmt1 std ++ py " días";
     help := py "Promedio y desviación estándar de la duración de los casos" |}.

Definition vencimientos_kpi (n : nat) : KPI :=
  {| title := py "Próximos Vencimientos";
     value := VInt (Z.of_nat n);
     delta := py "en los próximos 30 días";
     help := py "Casos que vencen en los próximos 30 días" |}.

(** The first 20 characters and an ellipsis when there are more. *)
Definition truncate20 (name : pystr) : pystr :=
  if (20 <? length name)%nat then take 20 name ++ py "..." else name.

Definition actuacion_kpi (name : pystr) (n : nat) : KPI :=
  {| title := py "Actuación más Común";
     value := VStr (truncate20 name);
     delta := Py.str_nat (N.of_nat n) ++ py " casos";
     help := py "Tipo de actuación más frecuente" |}.

(** The three conditional blocks of [get_kpi_metrics], each with the
    records it appends. *)
Definition duracion_block (df : DataFrame) : result (list KPI) :=
  if contains df Duracion then
    col ← getitem df Duracion;
    duracion_media ← series_mean col;
    duracion_std ← series_std col;
    Ok [duracion_kpi duracion_media duracion_std]
  else Ok [].

Definition vencimientos_block (now : Z) (df : DataFrame)
  : result (list KPI) :=
  if contains df Fecha_Limite then
    col ← getitem df Fecha_Limite;
    mask ← between col now (now + days30);
    Ok [vencimientos_kpi (len (getitem_mask df mask))]
  else Ok [].

Definition actuacion_block (P : Parsers) (df : DataFrame)
  : result (list KPI) :=
  if contains df Actuacion then
    col ← getitem df Actuacion;
    vc ← series_value_counts col;
    top_actuacion ← iloc0 vc;
    top_actuacion_nombre ← index0 vc;
    Ok [actuacion_kpi (str_label P top_actuacion_nombre) top_actuacion]
  else Ok [].

(** [s.count()]: the number of cells that are not missing. *)
Definition series_count (s : Series) : nat :=
  match s with
  | NumSeries xs => notna_count xs
  | DateSeries xs => notna_count xs
  | ObjSeries xs => notna_count xs
  end.

(** The frames on which every block of [get_kpi_metrics] goes through:
    a [Duración] column holds numbers, a [Fecha Límite] column holds
    instants, and an [Actuación] column has a cell that is not missing. *)
Definition kpi_ready (df : DataFrame) : Prop :=
  (contains df Duracion = true ->
     exists xs, getitem df Duracion = Ok (ItemSeries (NumSeries xs))) /\
  (contains df Fecha_Limite = true ->
     exists ds, getitem df Fecha_Limite = Ok (ItemSeries (DateSeries ds))) /\
  (contains df Actuacion = true ->
     exists s, getitem df Actuacion = Ok (ItemSeries s) /\
               (0 < series_count s)%nat).

(** The titles in display order, by the columns present. *)
Definition expected_titles (df : DataFrame) : list pystr :=
  py "Total de Casos"
    :: (if contains df Duracion then [py "Duración Promedio"] else [])
    ++ (if contains df Fecha_Limite then [py "Próximos Vencimientos"] else [])
    ++ (if contains df Actuacion then [py "Actuación más Común"] else []).

(** A loaded table of five cases, used to run the blocks. *)
Definition five_cases : DataFrame := {|
  index := [0; 1; 2; 3; 4];
  columns := [
    (Duracion, NumSeries [Some 10%Q; Some 20%Q; None; None; None]);
    (Fecha_Limite,
     DateSeries [Some 1000; Some (1000 + days30); Some 999;
                 Some (1001 + days30); None]);
    (Actuacion,
     ObjSeries [Some (py "A"); Some (py "A"); Some (py "B"); Some (py "C");
                Some (py "A")]) ]
|}.

(** The deadline [t] lies in the closed interval from [now] to 30 days
    later. *)
Definition in_window (now t : Z) : Prop := now <= t <= now + days30.

#[global] Instance in_window_dec (now t : Z) : Decision (in_window now t) :=
  and_dec (Z.le_dec now t) (Z.le_dec t (now + days30)).

(** Number of rows with a deadline in the window. *)
Definition upcoming (now : Z) (ds : list (option Z)) : nat :=
  length (filter (in_window now) (omap id ds)).

(** The scenario column of C8. *)
Definition actions_AABCA : list (option pystr) :=
  Some <$> [py "A"; py "A"; py "B"; py "C"; py "A"].

Definition Qsum (l : list Q) : Q := foldr Qplus 0%Q l.

(** The arithmetic mean of the values; [nan] when there is none. *)
Definition mean (vs : list Q) : pyfloat :=
  if (length vs =? 0)%nat then fnan
  else frat (Qsum vs / Q_of_nat (length vs)).

(** The sample standard deviation of the values: the square root of the
    sum of squared distances to the mean over [n - 1]; [nan] for fewer
    than two values. *)
Definition sample_std (vs : list Q) : pyfloat :=
  if (length vs <=? 1)%nat then fnan
  else
    let m := (Qsum vs / Q_of_nat (length vs))%Q in
    fsqrt (Qsum ((fun x => (x - m) * (x - m))%Q <$> vs)
           / Q_of_nat (length vs - 1)).

(** Equal numbers, up to the representation of fractions. *)
Inductive feq : pyfloat -> pyfloat -> Prop :=
| feq_nan : feq fnan fnan
| feq_rat q q' : (q == q')%Q -> feq (frat q) (frat q')
| feq_sqrt v v' : (v == v')%Q -> feq (fsqrt v) (fsqrt v').





(** No whitespace at either end. *)
Definition stripped (s : pystr) : Prop :=
  (forall c, head s = Some c -> Py.isspace c = false) /\
  (forall c, last s = Some c -> Py.isspace c = false).

(** What a CSV file in another encoding raises. *)
Definition decode_error : exn :=
  Exn OtherError (py "'utf-8' codec can't decode byte 0xf3").

(** A directory with a CSV file that does not decode and a JSON file that
    would load. *)
Definition broken_csv_env : Env := {|
  csv_files := [py "data/casos.csv"];
  read_csv := fun _ => Raise decode_error;
  json_files := [py "data/casos.json"];
  read_json := fun _ => Ok five_cases;
  sample := five_cases
|}.

(** The same frame with every column put through [g]. *)
Definition map_columns (g : pystr * Series -> pystr * Series)
    (df : DataFrame) : DataFrame :=
  {| index := index df; columns := g <$> columns df |}.

(** [g] keeps the label of a column and whether it holds text. *)
Definition shape_preserving (g : pystr * Series -> pystr * Series) : Prop :=
  forall c, (g c).1 = c.1 /\ is_object (g c).2 = is_object c.2.

(** [to_numeric] and [to_datetime] on one series. *)
Definition num_series (P : Parsers) (s : Series) : Series :=
  match s with
  | NumSeries xs => NumSeries xs
  | ObjSeries xs => NumSeries ((fun c => c ≫= parse_numeric P) <$> xs)
  | DateSeries xs =>
    NumSeries ((fun c => Some (inject_Z (default iNaT c))) <$> xs)
  end.

Definition date_series (P : Parsers) (s : Series) : Series :=
  match s with
  | DateSeries xs => DateSeries xs
  | ObjSeries xs => DateSeries ((fun c => c ≫= parse_datetime P) <$> xs)
  | NumSeries xs => DateSeries ((fun c => c ≫= datetime_of_number P) <$> xs)
  end.

(** The two passes over the text columns, on one series. *)
Definition fill_series (s : Series) : Series :=
  match s with
  | ObjSeries xs =>
    ObjSeries ((fun c => Some (default No_especificado c)) <$> xs)
  | _ => s
  end.

Definition strip_series (s : Series) : Series :=
  match s with
  | ObjSeries xs => ObjSeries ((fun c : option pystr => Py.strip <$> c) <$> xs)
  | _ => s
  end.

(** [f] on the column(s) labelled [x], and on those labelled by one of
    [names]. *)
Definition on_label (f : Series -> Series) (x : pystr)
    (c : pystr * Series) : pystr * Series :=
  if decide (c.1 = x) then (c.1, f c.2) else c.

Definition on_labels (f : Series -> Series) (names : list pystr)
    (c : pystr * Series) : pystr * Series :=
  if bool_decide (c.1 ∈ names) then (c.1, f c.2) else c.

Definition num_if (P : Parsers) (c : pystr * Series) : pystr * Series :=
  if decide (c.1 = Duracion) then (c.1, num_series P c.2) else c.

Definition date_if (P : Parsers) (c : pystr * Series) : pystr * Series :=
  if decide (c.1 = Fecha_Limite) then (c.1, date_series P c.2) else c.

(** The frame after the two conversions, before the sort. *)
Definition converted (P : Parsers) (raw : DataFrame) : DataFrame :=
  map_columns (date_if P) (map_columns (num_if P) (strip_columns raw)).

(** The row order the sort leaves: by deadline when there is one. *)
Definition row_order (df : DataFrame) : list nat :=
  match getitem df Fecha_Limite with
  | Ok (ItemSeries s) => series_argsort s
  | _ => seq 0 (len df)
  end.

Definition clean (c : pystr * Series) : pystr * Series :=
  (c.1, strip_series (fill_series c.2)).

(** The cells of a column after [to_numeric] and after [to_datetime]. *)
Definition numeric_cells (P : Parsers) (s : Series) : list (option Q) :=
  match s with
  | NumSeries xs => xs
  | ObjSeries xs => (fun c => c ≫= parse_numeric P) <$> xs
  | DateSeries xs => (fun c => Some (inject_Z (default iNaT c))) <$> xs
  end.

Definition datetime_cells (P : Parsers) (s : Series) : list (option Z) :=
  match s with
  | DateSeries xs => xs
  | ObjSeries xs => (fun c => c ≫= parse_datetime P) <$> xs
  | NumSeries xs => (fun c => c ≫= datetime_of_number P) <$> xs
  end.

(** A text cell after the fill and the strip, in this order. *)
Definition text_cell (c : option pystr) : option pystr :=
  Some (Py.strip (default No_especificado c)).

(** The loaded column for a raw column [s] whose stripped label is
    [name], with the rows in the order [order]. *)
Definition loaded_series (P : Parsers) (order : list nat) (name : pystr)
    (s : Series) : Series :=
  if decide (name = Duracion) then
    NumSeries (take_at order (numeric_cells P s))
  else if decide (name = Fecha_Limite) then
    DateSeries (take_at order (datetime_cells P s))
  else
    match s with
    | ObjSeries xs => ObjSeries (text_cell <$> take_at order xs)
    | _ => series_take order s
    end.

Definition loaded_column (P : Parsers) (order : list nat)
    (c : pystr * Series) : pystr * Series :=
  (Py.strip c.1, loaded_series P order (Py.strip c.1) c.2).

(** Ascending deadlines with the missing ones last. *)
Definition deadline_le (a b : option Z) : Prop :=
  match a, b with
  | Some x, Some y => x <= y
  | _, None => True
  | None, Some _ => False
  end.

(** A CSV of three cases with a padded header, a duration that is not a
    number, a missing deadline, a missing action and an action made of
    blanks. *)
Definition casos_raw : DataFrame := {|
  index := [0; 1; 2];
  columns := [
    (py " Duración ",
     ObjSeries [Some (py "10"); Some (py "bad"); Some (py "20")]);
    (py "Fecha Límite", ObjSeries [Some (py "30"); None; Some (py "5")]);
    (py "Actuación", ObjSeries [Some (py " A "); None; Some (py "   ")]) ]
|}.

Definition casos_env : Env := {|
  csv_files := [py "data/casos.csv"];
  read_csv := fun _ => Ok casos_raw;
  json_files := [];
  read_json := fun _ => Ok empty_frame;
  sample := empty_frame
|}.

(* ================================================================== *)
(** * The rest of the program: the page, lines 146-310 *)
(* ================================================================== *)

(** Line 225: [df[cat_col].fillna('No especificado').value_counts()] on
    the cells of a text column. *)
Definition bar_counts (col : list (option pystr)) : list (pystr * nat) :=
  value_counts ((fun c => Some (default No_especificado c)) <$> col).

Module Fmt2.

(** The number of hundredths nearest to [q], and nearest to the square
    root of [v]. *)
Definition hundredths (q : Q) : Z := Fmt.round_half_even (100 * q)%Q.

Definition hundredths_sqrt (v : Q) : Z :=
  let w := (40000 * v)%Q in
  let s := Z.sqrt (Qfloor w) in
  let k := (s + 1) / 2 in
  if Z.odd s && Qeq_bool w (inject_Z (s * s)) && Z.odd k then k - 1 else k.

(** [d.dd]-rendering of a number of hundredths with its sign. *)
Definition render2 (neg : bool) (k : Z) : pystr :=
  (if neg then [45%N] else [])
    ++ Py.str_nat (Z.to_N (Z.abs k / 100)) ++ [46%N]
    ++ Py.str_nat (Z.to_N (Z.abs k mod 100 / 10))
    ++ Py.str_nat (Z.to_N (Z.abs k mod 10)).

(** [f"{x:.2f}"] *)
Definition fmt2 (x : pyfloat) : pystr :=
  match x with
  | fnan => py "nan"
  | frat q => render2 (Qle_bool q 0 && negb (Qeq_bool q 0)) (hundredths q)
  | fsqrt v => render2 false (hundredths_sqrt v)
  end.

End Fmt2.

(** Cells converted with [errors='raise']: the first cell that does not
    convert makes the call fail; a missing cell stays missing. *)
Fixpoint convert_all {A B : Type} (f : A -> option B) (xs : list (option A))
  : option (list (option B)) :=
  match xs with
  | [] => Some []
  | None :: xs' => cons None <$> convert_all f xs'
  | Some a :: xs' =>
    match f a with
    | Some b => cons (Some b) <$> convert_all f xs'
    | None => None
    end
  end.

(** [pd.to_datetime(col)], line 160. *)
Definition to_datetime_raise (P : Parsers) (col : Item) : result Series :=
  let done (r : option (list (option Z))) : result Series :=
    match r with
    | Some ds => Ok (DateSeries ds)
    | None => Raise (Exn ValueError (py "Unknown datetime string format"))
    end in
  match col with
  | ItemSeries (DateSeries xs) => Ok (DateSeries xs)
  | ItemSeries (ObjSeries xs) => done (convert_all (parse_datetime P) xs)
  | ItemSeries (NumSeries xs) => done (convert_all (datetime_of_number P) xs)
  | ItemFrame _ =>
    Raise (Exn ValueError
             (py "to assemble mappings requires at least that [year, month, day] be specified"))
  end.

(** [col.fillna('No especificado')] where the program applies it to a
    column found among the text columns. *)
Definition fillna_item (col : Item) : Item :=
  match col with
  | ItemSeries (ObjSeries xs) =>
    ItemSeries (ObjSeries ((fun c => Some (default No_especificado c)) <$> xs))
  | _ => col
  end.

(** Lines 238-242 and 280-284 on a frequency table with labels of any
    dtype: the first five entries and, when there are more, one entry
    "Otros" with the sum of the rest. *)
Definition pie_counts (value_counts : list (label * nat))
  : list (label * nat) :=
  let top_5 := take 5 value_counts in
  let others :=
    if (5 <? length value_counts)%nat
    then [(LStr (py "Otros"), sum_list (drop 5 value_counts).*2)]
    else [] in
  top_5 ++ others.

(** Where a widget goes: the page body, or cell [i] of [st.columns(n)]. *)
Inductive Place :=
| Body
| Column (i n : nat).

(** What the page shows, one constructor per Streamlit call of the
    program. *)
Inductive Shown :=
| Title (s : pystr)
| Subheader (s : pystr)
| Error (s : pystr)
| Info (s : pystr)
| Text (s : pystr)
| CountFrame (rows : list (label * nat))
| CountSeries (rows : list (label * nat))
| Metric (kpi : KPI)
| Timeline (df_sorted : DataFrame) (media : pyfloat) (annotation : pystr)
| Pie (data : list (label * nat)) (title : pystr).

(** A run of page code: what it has shown so far and how it ended. *)
Record out (A : Type) := Out {
  shown : list (Place * Shown);
  outcome : result A
}.
Arguments Out {A} shown outcome.
Arguments shown {A} o.
Arguments outcome {A} o.

#[global] Instance out_ret : MRet out := fun A a => Out [] (Ok a).
#[global] Instance out_bind : MBind out := fun A B f m =>
  match outcome m with
  | Ok a => Out (shown m ++ shown (f a)) (outcome (f a))
  | Raise e => Out (shown m) (Raise e)
  end.

Definition show (pl : Place) (s : Shown) : out unit := Out [(pl, s)] (Ok tt).

Definition call {A : Type} (r : result A) : out A := Out [] r.

(** The figure building of plotly up to the point where the chart is
    handed to [st.plotly_chart]; it may raise. *)
Record Plotly := {
  (** lines 171-194, on [df_sorted], the mean and the annotation text *)
  plot_timeline : DataFrame -> pyfloat -> pystr -> result unit;
  (** lines 245-262 and 287-304, on the data and the title *)
  plot_pie : list (label * nat) -> pystr -> result unit
}.

(** Lines 203-211: the cards, four columns wide. *)
Fixpoint kpi_cards (idx : nat) (kpi_metrics : list KPI) : out unit :=
  match kpi_metrics with
  | [] => mret tt
  | kpi :: rest =>
    show (Column (idx mod 4) 4) (Metric kpi);;
    kpi_cards (S idx) rest
  end.

(** Lines 308-310: what the [except] clause shows for [e]. *)
Definition handler (e : exn) : list (Place * Shown) := [
  (Body, Error (py "Error al cargar o procesar los datos: " ++ exn_str e));
  (Body, Info (py "Por favor, asegúrese de tener archivos de datos (.csv o .json) en la carpeta 'data/'")) ].

Section page.
Variable P : Parsers.
Variable G : Plotly.

(** [load_data()] as the page calls it: its messages appear on the
    page. *)
Definition run_load_data (env : Env) : out DataFrame :=
  Out ((fun m => (Body, Error m)) <$> (load_data P env).1)
      (load_data P env).2.

(** Lines 155-196: the strict conversion of the deadlines and the
    timeline chart.  The annotation text is made while the figure is
    built, after the mean and the sort; nothing is shown in between, so
    the model makes it before it calls plotly. *)
Definition timeline_section (df : DataFrame) : out DataFrame :=
  let date_col :=
    if contains df Fecha_Limite then Some Fecha_Limite else None in
  df ← match date_col with
       | Some c =>
         col ← call (getitem df c);
         s ← call (to_datetime_raise P col);
         mret (setitem df c s)
       | None => mret df
       end;
  match date_col with
  | Some c =>
    if contains df Duracion then
      col ← call (getitem df Duracion);
      media_duracion ← call (series_mean col);
      df_sorted ← call (sort_values df c);
      let annotation := py "Media: " ++ Fmt2.fmt2 media_duracion in
      call (plot_timeline G df_sorted media_duracion annotation);;
      show Body (Timeline df_sorted media_duracion annotation);;
      mret df
    else mret df
  | None => mret df
  end.

(** Lines 199-211: the heading and the cards. *)
Definition kpi_section (now : Z) (df : DataFrame) : out unit :=
  show Body (Subheader (py "📊 Métricas Clave"));;
  kpi_metrics ← call (get_kpi_metrics P now df);
  kpi_cards 0 kpi_metrics.

(** Lines 222-229: the count table of the first text column.  The
    frequency table is [series_value_counts], as in [get_kpi_metrics]. *)
Definition bar_section (pl : Place) (df : DataFrame) (cat_col : pystr)
  : out unit :=
  show pl (Text (py "### Conteo de " ++ cat_col));;
  col ← call (getitem df cat_col);
  counts ← call (series_value_counts (fillna_item col));
  show pl (CountFrame counts).

(** Lines 233-264 and 275-306: a pie of the top five and the rest. *)
Definition pie_section (pl : Place) (df : DataFrame) (cat_col : pystr)
  : out unit :=
  col ← call (getitem df cat_col);
  value_counts ← call (series_value_counts col);
  let final_counts := pie_counts value_counts in
  let title := py "Top 5 - " ++ cat_col in
  call (plot_pie G final_counts title);;
  show pl (Pie final_counts title).

(** Lines 269-271: the count table of the third text column. *)
Definition count_section (pl : Place) (df : DataFrame) (cat_col : pystr)
  : out unit :=
  show pl (Text (py "### Conteo de " ++ cat_col));;
  col ← call (getitem df cat_col);
  counts ← call (series_value_counts col);
  show pl (CountSeries counts).

(** [if len(categorical_cols) > k: ...] on the column at position [k]. *)
Definition when_column (categorical_cols : list pystr) (k : nat)
    (section : pystr -> out unit) : out unit :=
  match categorical_cols !! k with
  | Some cat_col => section cat_col
  | None => mret tt
  end.

(** Lines 214-306: two columns; the first four text columns of the frame
    feed a table and a pie on the left, a table and a pie on the right. *)
Definition detail_section (df : DataFrame) : out unit :=
  show Body (Subheader (py "Análisis Detallado"));;
  let col1 := Column 0 2 in
  let col2 := Column 1 2 in
  let categorical_cols := select_dtypes_object df in
  when_column categorical_cols 0 (bar_section col1 df);;
  when_column categorical_cols 1 (pie_section col1 df);;
  when_column categorical_cols 2 (count_section col2 df);;
  when_column categorical_cols 3 (pie_section col2 df).

(** The body of the [try], lines 147-306. *)
Definition page_body (env : Env) (now : Z) : out unit :=
  df ← run_load_data env;
  show Body (Title (py "📊 Dashboard Interactivo"));;
  show Body (Subheader (py "Evolución Temporal"));;
  df ← timeline_section df;
  kpi_section now df;;
  detail_section df.

(** One run of the script from line 146 on: everything shown, the
    handler of lines 308-310 included. *)
Definition page (env : Env) (now : Z) : list (Place * Shown) :=
  let run := page_body env now in
  match outcome run with
  | Ok _ => shown run
  | Raise e => shown run ++ handler e
  end.
End page.

(** A plotly that draws whatever it is given. *)
Definition plotly_ok : Plotly := {|
  plot_timeline _ _ _ := Ok tt;
  plot_pie _ _ := Ok tt
|}.

(** A CSV file that holds a header and no row. *)
Definition header_only_raw : DataFrame := {|
  index := [];
  columns := [(py "Fecha Límite", ObjSeries []); (py "Actuación", ObjSeries [])]
|}.

Definition header_only_env : Env := {|
  csv_files := [py "data/casos.csv"];
  read_csv := fun _ => Ok header_only_raw;
  json_files := [];
  read_json := fun _ => Ok empty_frame;
  sample := empty_frame
|}.

(** A CSV file whose header names two columns alike up to blanks. *)
Definition twice_raw : DataFrame := {|
  index := [0];
  columns := [(py "Juzgado", ObjSeries [Some (py "1")]);
              (py "Juzgado ", ObjSeries [Some (py "2")])]
|}.

Definition twice_env : Env := {|
  csv_files := [py "data/casos.csv"];
  read_csv := fun _ => Ok twice_raw;
  json_files := [];
  read_json := fun _ => Ok empty_frame;
  sample := empty_frame
|}.

(** The table [load_data] returns for [casos_env]. *)
Definition casos_loaded : DataFrame := {|
  index := [2; 0; 1];
  columns := [
    (Duracion, NumSeries [Some 20%Q; Some 10%Q; None]);
    (Fecha_Limite, DateSeries [Some 5; Some 30; None]);
    (Actuacion, ObjSeries [Some []; Some (py "A"); Some No_especificado]) ]
|}.



(** A JSON file whose deadlines are text, one of them not a date. *)
Definition plazos_json : DataFrame := {|
  index := [0; 1];
  columns := [(Fecha_Limite, ObjSeries [Some (py "30"); Some (py "pronto")])]
|}.

Definition plazos_env : Env := {|
  csv_files := [];
  read_csv := fun _ => Ok empty_frame;
  json_files := [py "data/plazos.json"];
  read_json := fun _ => Ok plazos_json;
  sample := empty_frame
|}.

(** A directory with one JSON file, which does not decode. *)
Definition broken_json_env : Env := {|
  csv_files := [];
  read_csv := fun _ => Ok empty_frame;
  json_files := [py "data/casos.json"];
  read_json := fun _ => Raise decode_error;
  sample := empty_frame
|}.

(* ================================================================== *)
(** * Literals and formatting on examples *)
(* ================================================================== *)

Example lit_Duracion :
  py "Duración" = [68; 117; 114; 97; 99; 105; 243; 110]%N.
Proof. reflexivity. Qed.

Example strip_example :
  Py.strip (py "  Fecha Límite ") = py "Fecha Límite".
Proof. reflexivity. Qed.

Example fmt1_examples :
  Fmt.fmt1 (frat 15) = py "15.0" /\
  Fmt.fmt1 (fsqrt 50) = py "7.1" /\
  Fmt.fmt1 (frat (-1 # 25)) = py "-0.0" /\
  Fmt.fmt1 (frat (1 # 4)) = py "0.2" /\
  Fmt.fmt1 (frat (3 # 4)) = py "0.8" /\
  Fmt.fmt1 (fsqrt (1 # 16)) = py "0.2" /\
  Fmt.fmt1 (frat (-25 # 2)) = py "-12.5".
Proof. repeat split; vm_compute; reflexivity. Qed.

(* ================================================================== *)
(** * Properties of the sort *)
(* ================================================================== *)

Section sort_by_facts.
Context {A : Type} (le : A -> A -> bool).

Lemma insert_sorted_perm x l : insert_sorted le x l ≡ₚ x :: l.
Proof.
  induction l as [|y l IH]; simpl; [done|].
  destruct (le x y); [done|].
  rewrite IH. apply Permutation_swap.
Qed.

Lemma sort_by_perm l : sort_by le l ≡ₚ l.
Proof.
  induction l as [|x l IH]; simpl; [done|].
  by rewrite insert_sorted_perm, IH.
Qed.


Hypothesis le_total : forall x y, le x y = true \/ le y x = true.
Hypothesis le_trans :
  forall x y z, le x y = true -> le y z = true -> le x z = true.

Lemma insert_sorted_sorted x l :
  StronglySorted (fun a b => le a b = true) l ->
  StronglySorted (fun a b => le a b = true) (insert_sorted le x l).
Proof.
  induction 1 as [|y l Hs IH Hall]; simpl.
  - repeat constructor.
  - destruct (le x y) eqn:Hxy.
    + constructor; [by constructor|].
      constructor; [done|].
      eapply Forall_impl; [exact Hall|]. intros z Hz. by eapply le_trans.
    + constructor; [done|].
      rewrite insert_sorted_perm. constructor; [|done].
      destruct (le_total x y); congruence.
Qed.

Lemma sort_by_sorted l :
  StronglySorted (fun a b => le a b = true) (sort_by le l).
Proof.
  induction l as [|x l IH]; simpl; [constructor|].
  by apply insert_sorted_sorted.
Qed.
End sort_by_facts.


(** Sorting positions: the keys at the sorted positions are the sorted
    keys, and the positions are a permutation of the rows. *)
Section argsort_facts.
Context {K : Type} `{Inhabited K} (le : K -> K -> bool).

Lemma argsort_perm (keys : list K) :
  argsort le keys ≡ₚ seq 0 (length keys).
Proof.
  unfold argsort. rewrite sort_by_perm.
  rewrite fst_zip; [done|]. by rewrite length_seq.
Qed.

Lemma take_at_argsort (keys : list K) :
  take_at (argsort le keys) keys
  = (sort_by (fun a b => le a.2 b.2) (zip (seq 0 (length keys)) keys)).*2.
Proof.
  unfold argsort, take_at.
  assert (Forall (fun p : nat * K => keys !! p.1 = Some p.2)
            (sort_by (fun a b => le a.2 b.2)
               (zip (seq 0 (length keys)) keys))) as Hall.
  { rewrite sort_by_perm. apply Forall_forall. intros [i k] Hin.
    apply list_elem_of_lookup in Hin as [j Hj].
    apply lookup_zip_with_Some in Hj as (a & b & [= <- <-] & Ha & Hb).
    apply lookup_seq in Ha as [-> _]. done. }
  induction Hall as [|[i k] l Hik _ IH]; simpl; [done|].
  f_equal; [|done]. simpl in Hik.
  by rewrite list_lookup_total_alt, Hik.
Qed.

Lemma take_at_argsort_sorted (keys : list K) :
  (forall x y, le x y = true \/ le y x = true) ->
  (forall x y z, le x y = true -> le y z = true -> le x z = true) ->
  StronglySorted (fun a b => le a b = true)
    (take_at (argsort le keys) keys).
Proof.
  intros Htot Htrans. rewrite take_at_argsort.
  set (l := sort_by _ _).
  assert (StronglySorted (fun a b : nat * K => le a.2 b.2 = true) l) as Hs.
  { apply sort_by_sorted; [intros; apply Htot|].
    intros x y z. apply Htrans. }
  clearbody l. induction Hs as [|p l _ IH Hall]; simpl; [constructor|].
  constructor; [done|]. by apply Forall_fmap.
Qed.
End argsort_facts.

(* ================================================================== *)
(** * Properties of the frequency table *)
(* ================================================================== *)


Lemma filter_none {A : Type} (Q : A -> Prop) `{forall x, Decision (Q x)}
    (l : list A) :
  Forall (fun x => ~ Q x) l -> filter Q l = [].
Proof.
  induction 1 as [|x l Hx _ IH]; [done|]. by rewrite filter_cons_False.
Qed.

Section tally_facts.
Context {A : Type} `{EqDecision A}.
Implicit Types (l : list A) (x y : A).

Lemma count_cons x y l :
  count x (y :: l) = if decide (y = x) then S (count x l) else count x l.
Proof. unfold count. rewrite filter_cons. by destruct (decide (y = x)). Qed.

Lemma count_pos x l : x ∈ l <-> (0 < count x l)%nat.
Proof.
  induction l as [|y l IH]; [by rewrite elem_of_nil; unfold count; simpl; lia|].
  rewrite count_cons, elem_of_cons.
  destruct (decide (y = x)); [split; [lia|by left; done]|].
  rewrite IH. split; [intros [?|?]; [congruence|done]|by right].
Qed.

Lemma tally_entry l x c : (x, c) ∈ tally l -> c = count x l /\ x ∈ l.
Proof.
  revert x c. induction l as [|y l IH]; intros x c Hin; simpl in Hin.
  - by apply elem_of_nil in Hin.
  - apply elem_of_cons in Hin as [[= -> ->]|Hin].
    + rewrite count_cons, decide_True by done. split; [done|by left].
    + apply list_elem_of_filter in Hin as [Hne Hin]. simpl in Hne.
      destruct (IH _ _ Hin) as [-> Hx].
      rewrite count_cons, decide_False by done. split; [done|by right].
Qed.

Lemma tally_key l x : x ∈ l -> (x, count x l) ∈ tally l.
Proof.
  induction l as [|y l IH]; intros Hin; [by apply elem_of_nil in Hin|].
  simpl. rewrite count_cons. destruct (decide (y = x)) as [->|Hne].
  - by left.
  - right. apply list_elem_of_filter. split; [done|].
    apply IH. apply elem_of_cons in Hin as [?|?]; [congruence|done].
Qed.

Lemma tally_keys l x : x ∈ (tally l).*1 <-> x ∈ l.
Proof.
  split.
  - intros Hin. apply list_elem_of_fmap in Hin as ([y c] & -> & Hin).
    by apply tally_entry in Hin as [_ ?].
  - intros Hin. apply list_elem_of_fmap. exists (x, count x l).
    split; [done|by apply tally_key].
Qed.

Lemma tally_NoDup l : NoDup (tally l).*1.
Proof.
  induction l as [|x l IH]; simpl; [constructor|].
  constructor.
  - intros Hin. apply list_elem_of_fmap in Hin as ([y c] & Hy & Hin).
    apply list_elem_of_filter in Hin as [Hne _]. simpl in *. congruence.
  - eapply sublist_NoDup; [exact IH|apply fmap_sublist, sublist_filter].
Qed.

Lemma tally_sum_key l x :
  sum_list (filter (fun e => e.1 = x) (tally l)).*2 = count x l.
Proof.
  induction l as [|y l IH]; [done|].
  simpl. rewrite count_cons, filter_cons. simpl.
  destruct (decide (y = x)) as [->|Hne].
  - simpl. f_equal.
    rewrite filter_none; [done|].
    apply Forall_forall. intros e He Hk.
    by apply list_elem_of_filter in He as [? _].
  - rewrite <-IH. f_equal. f_equal.
    rewrite list_filter_filter. apply list_filter_iff.
    intros e. split; [by intros [? _]|intros ->; split; [done|congruence]].
Qed.

Lemma sum_list_filter_split {B : Type} (Q : B * nat -> Prop)
    `{forall e, Decision (Q e)} (t : list (B * nat)) :
  (sum_list (filter Q t).*2 + sum_list (filter (fun e => ~ Q e) t).*2
   = sum_list t.*2)%nat.
Proof.
  induction t as [|e t IH]; [done|].
  rewrite !filter_cons. destruct (decide (Q e)).
  - rewrite decide_False by tauto. csimpl. lia.
  - rewrite decide_True by done. csimpl. lia.
Qed.

Lemma tally_sum l : sum_list (tally l).*2 = length l.
Proof.
  induction l as [|x l IH]; [done|].
  simpl. f_equal. rewrite <-IH.
  rewrite <-(sum_list_filter_split (fun e => e.1 = x) (tally l)).
  by rewrite tally_sum_key.
Qed.

End tally_facts.

Lemma StronglySorted_mono {A : Type} (R1 R2 : A -> A -> Prop) (l : list A) :
  (forall a b, R1 a b -> R2 a b) -> StronglySorted R1 l -> StronglySorted R2 l.
Proof.
  intros HR. induction 1 as [|x l _ IH Hall]; constructor; [done|].
  eapply Forall_impl; [exact Hall|]. intros y. apply HR.
Qed.

Section value_counts_facts.
Context {A : Type} `{EqDecision A}.
Implicit Types (xs : list (option A)).

Lemma omap_id_length xs : length (omap id xs) = notna_count xs.
Proof.
  unfold notna_count. induction xs as [|[x|] xs IH]; [done|..].
  - rewrite filter_cons_True by (by eexists). simpl. by f_equal.
  - rewrite filter_cons_False by (by intros [? ?]). done.
Qed.

Lemma omap_id_all_some xs : Forall is_Some xs -> length (omap id xs) = length xs.
Proof.
  induction 1 as [|x xs [v ->] _ IH]; [done|]. simpl. by f_equal.
Qed.

Lemma count_omap_id x xs : count x (omap id xs) = count (Some x) xs.
Proof.
  induction xs as [|[y|] xs IH]; [done|..]; csimpl.
  - rewrite !count_cons, IH.
    destruct (decide (y = x)) as [->|Hne].
    + by rewrite decide_True.
    + by rewrite decide_False by congruence.
  - by rewrite count_cons, decide_False.
Qed.

Lemma elem_of_omap_id x xs : x ∈ omap id xs <-> Some x ∈ xs.
Proof.
  rewrite list_elem_of_omap. split.
  - by intros ([y|] & Hin & [= ->]).
  - intros Hin. by exists (Some x).
Qed.

Lemma value_counts_perm xs : value_counts xs ≡ₚ tally (omap id xs).
Proof. apply sort_by_perm. Qed.

Lemma value_counts_sorted xs :
  StronglySorted (fun a b => (b.2 <= a.2)%nat) (value_counts xs).
Proof.
  unfold value_counts.
  eapply (StronglySorted_mono
            (fun a b : A * nat => (b.2 <=? a.2)%nat = true)).
  - intros a b Hab. by apply Nat.leb_le.
  - apply sort_by_sorted.
    + intros a b. rewrite !Nat.leb_le. lia.
    + intros a b c. rewrite !Nat.leb_le. lia.
Qed.

Lemma value_counts_entry xs x c :
  (x, c) ∈ value_counts xs -> c = count (Some x) xs /\ Some x ∈ xs.
Proof.
  rewrite value_counts_perm. intros [-> Hin]%tally_entry.
  by rewrite count_omap_id, <-elem_of_omap_id.
Qed.

Lemma value_counts_sum xs : sum_list (value_counts xs).*2 = notna_count xs.
Proof.
  rewrite <-omap_id_length, <-tally_sum.
  assert (forall l k : list nat, l ≡ₚ k -> sum_list l = sum_list k) as Hp.
  { induction 1; simpl; lia. }
  apply Hp. by rewrite value_counts_perm.
Qed.

Lemma value_counts_length xs : length (value_counts xs) = distinct_values xs.
Proof.
  unfold distinct_values. rewrite value_counts_perm.
  rewrite <-(length_fmap fst). apply Permutation_length.
  apply NoDup_Permutation.
  - apply tally_NoDup.
  - apply NoDup_remove_dups.
  - intros x. by rewrite tally_keys, elem_of_remove_dups.
Qed.

End value_counts_facts.

(* ================================================================== *)
(** * The pie aggregation *)
(* ================================================================== *)

Lemma final_counts_few (col : list (option pystr)) :
  (distinct_values col <= 5)%nat -> final_counts col = value_counts col.
Proof.
  intros Hd. unfold final_counts. rewrite value_counts_length.
  destruct (Nat.ltb_spec 5 (distinct_values col)); [lia|].
  rewrite take_ge by (rewrite value_counts_length; lia).
  by rewrite app_nil_r.
Qed.

Lemma final_counts_many (col : list (option pystr)) :
  (5 < distinct_values col)%nat ->
  final_counts col
  = take 5 (value_counts col)
      ++ [(py "Otros", sum_list (drop 5 (value_counts col)).*2)].
Proof.
  intros Hd. unfold final_counts. rewrite value_counts_length.
  by destruct (Nat.ltb_spec 5 (distinct_values col)); [|lia].
Qed.

(** C2 (as the code has it).  When the column has more than five distinct
    values, the result ends with one collapsed entry after the five kept
    ones, and the label of that entry is, character for character, the
    five letters O-t-r-o-s. *)
Theorem collapsed_label_is_Otros (col : list (option pystr)) :
  (5 < distinct_values col)%nat ->
  exists top n,
    final_counts col = top ++ [(py "Otros", n)] /\
    length top = 5%nat /\
    last (final_counts col).*1 = Some [79; 116; 114; 111; 115]%N.
Proof.
  intros Hd. rewrite final_counts_many by done.
  eexists _, _. split; [done|]. split.
  - rewrite length_take, value_counts_length. lia.
  - rewrite fmap_app. by apply last_snoc.
Qed.

(** C2 as stated fails: with six distinct values the collapsed entry is
    there, and no entry of the result carries the label "Others". *)
Lemma collapsed_label_not_Others :
  (5 < distinct_values six_values)%nat /\
  final_counts six_values
  = [(py "a", 1); (py "b", 1); (py "c", 1); (py "d", 1); (py "e", 1);
     (py "Otros", 1)]%nat /\
  py "Others" ∉ (final_counts six_values).*1.
Proof.
  split; [vm_compute; lia|]. split; [by vm_compute|].
  vm_compute. intros Hin.
  repeat (apply elem_of_cons in Hin as [Hin|Hin]; [discriminate Hin|]).
  by apply elem_of_nil in Hin.
Qed.

Lemma collapsed_label_is_Otros_witness :
  (5 < distinct_values six_values)%nat /\
  exists top n,
    final_counts six_values = top ++ [(py "Otros", n)] /\
    length top = 5%nat /\
    last (final_counts six_values).*1 = Some [79; 116; 114; 111; 115]%N.
Proof.
  assert (5 < distinct_values six_values)%nat as Hd by (vm_compute; lia).
  split; [exact Hd|]. exact (collapsed_label_is_Otros six_values Hd).
Defined.

(** C3 (as the code has it), for a column without missing cells.  With at
    most five distinct values the result is the frequency table itself,
    nothing is appended and every label is a value of the column.  With
    more than five, the five kept entries are the first five of the
    frequency table, none of the dropped entries is more frequent than a
    kept one, the collapsed entry "Otros" counts the dropped rows, and all
    counts together are the number of rows.  Every count is the number of
    rows holding its label. *)
Theorem top5_with_Otros (col : list (option pystr)) :
  Forall is_Some col ->
  (forall x c, (x, c) ∈ value_counts col -> c = count (Some x) col) /\
  ((distinct_values col <= 5)%nat ->
     final_counts col = value_counts col /\
     (forall e, e ∈ final_counts col -> Some e.1 ∈ col) /\
     sum_list (final_counts col).*2 = length col) /\
  ((5 < distinct_values col)%nat ->
     exists top rest,
       value_counts col = top ++ rest /\
       length top = 5%nat /\
       final_counts col = top ++ [(py "Otros", sum_list rest.*2)] /\
       (forall a b, a ∈ top -> b ∈ rest -> (b.2 <= a.2)%nat) /\
       (sum_list top.*2 + sum_list rest.*2 = length col)%nat).
Proof.
  intros Hall.
  assert (sum_list (value_counts col).*2 = length col) as Hsum.
  { by rewrite value_counts_sum, <-omap_id_length, omap_id_all_some. }
  split; [|split].
  - intros x c Hin. by apply value_counts_entry in Hin as [-> _].
  - intros Hd. rewrite final_counts_few by done. split; [done|].
    split; [|done]. intros [x c] Hin.
    by apply value_counts_entry in Hin as [_ ?].
  - intros Hd. exists (take 5 (value_counts col)), (drop 5 (value_counts col)).
    split; [by rewrite take_drop|]. split.
    { rewrite length_take, value_counts_length. lia. }
    split; [by apply final_counts_many|]. split.
    + intros a b Ha Hb.
      pose proof (value_counts_sorted col) as Hs.
      rewrite <-(take_drop 5 (value_counts col)) in Hs.
      by eapply (StronglySorted_app_1_elem_of _ _ _ _ _ Hs).
    + transitivity
        (sum_list (take 5 (value_counts col) ++ drop 5 (value_counts col)).*2);
        [|by rewrite take_drop].
      rewrite fmap_app. clear.
      generalize (take 5 (value_counts col)).*2.
      intros l. induction l; simpl; lia.
Qed.

Lemma six_values_all_some : Forall is_Some six_values.
Proof. unfold six_values. apply Forall_fmap, Forall_true. intros x. by eexists. Defined.

Lemma top5_with_Otros_witness :
  Forall is_Some six_values /\
  (forall x c, (x, c) ∈ value_counts six_values ->
     c = count (Some x) six_values) /\
  ((distinct_values six_values <= 5)%nat ->
     final_counts six_values = value_counts six_values /\
     (forall e, e ∈ final_counts six_values -> Some e.1 ∈ six_values) /\
     sum_list (final_counts six_values).*2 = length six_values) /\
  ((5 < distinct_values six_values)%nat ->
     exists top rest,
       value_counts six_values = top ++ rest /\
       length top = 5%nat /\
       final_counts six_values = top ++ [(py "Otros", sum_list rest.*2)] /\
       (forall a b, a ∈ top -> b ∈ rest -> (b.2 <= a.2)%nat) /\
       (sum_list top.*2 + sum_list rest.*2 = length six_values)%nat).
Proof.
  split; [exact six_values_all_some|].
  exact (top5_with_Otros six_values six_values_all_some).
Defined.

(** C3 as stated fails: on a column of seven rows, one of them missing,
    there are more than five distinct values, the five kept counts and the
    collapsed count add up to six, and no entry is labelled "Others". *)
Lemma top5_total_not_row_count :
  (5 < distinct_values six_values_and_a_gap)%nat /\
  length six_values_and_a_gap = 7%nat /\
  sum_list (final_counts six_values_and_a_gap).*2 = 6%nat /\
  py "Others" ∉ (final_counts six_values_and_a_gap).*1.
Proof.
  split; [vm_compute; lia|]. split; [done|]. split; [by vm_compute|].
  vm_compute. intros Hin.
  repeat (apply elem_of_cons in Hin as [Hin|Hin]; [discriminate Hin|]).
  by apply elem_of_nil in Hin.
Qed.

(** Seven categories with 10, 9, 8, 7, 6, 5 and 4 rows: the first five
    are kept and "Otros" counts 5 + 4 rows. *)
Example final_counts_seven_categories :
  final_counts
    (Some <$> (replicate 10 (py "g") ++ replicate 9 (py "f")
               ++ replicate 8 (py "e") ++ replicate 7 (py "d")
               ++ replicate 6 (py "c") ++ replicate 5 (py "b")
               ++ replicate 4 (py "a")))
  = [(py "g", 10); (py "f", 9); (py "e", 8); (py "d", 7); (py "c", 6);
     (py "Otros", 9)]%nat.
Proof. by vm_compute. Qed.

(* ================================================================== *)
(** * The KPI records *)
(* ================================================================== *)

(** Case analysis on the calls that may raise, in the order they are made. *)
Ltac result_cases :=
  repeat (unfold mbind, result_bind in *; cbv beta iota;
          match goal with
          | |- context [match ?m with Ok _ => _ | Raise _ => _ end] =>
            lazymatch m with
            | context [match _ with Ok _ => _ | Raise _ => _ end] => fail
            | _ => destruct m eqn:?
            end
          end);
  simplify_eq; try reflexivity.

Lemma get_kpi_metrics_blocks (P : Parsers) (now : Z) (df : DataFrame) :
  get_kpi_metrics P now df
  = (d ← duracion_block df;
     v ← vencimientos_block now df;
     a ← actuacion_block P df;
     Ok (total_kpi (len df) :: d ++ v ++ a)).
Proof.
  unfold get_kpi_metrics, duracion_block, vencimientos_block,
    actuacion_block.
  destruct (contains df Duracion), (contains df Fecha_Limite),
    (contains df Actuacion); result_cases.
Qed.

(* ================================================================== *)
(** * Column access *)
(* ================================================================== *)

Lemma getitem_series df name s :
  getitem df name = Ok (ItemSeries s) <->
  filter (fun c => c.1 = name) (columns df) = [(name, s)].
Proof.
  unfold getitem.
  destruct (filter _ (columns df)) as [|[n s'] [|c' cs]] eqn:Hf; split;
    intros Heq; try done.
  - assert ((n, s') ∈ filter (fun c => c.1 = name) (columns df)) as Hin
      by (rewrite Hf; by left).
    apply list_elem_of_filter in Hin as [Hn _]. simpl in *. congruence.
  - by injection Heq as -> ->.
Qed.

Lemma getitem_elem_of df name s :
  getitem df name = Ok (ItemSeries s) -> (name, s) ∈ columns df.
Proof.
  intros Hg%getitem_series.
  assert ((name, s) ∈ filter (fun c => c.1 = name) (columns df)) as Hin
    by (rewrite Hg; by left).
  by apply list_elem_of_filter in Hin as [_ ?].
Qed.

(** With one column under the label, any column found under it is that
    one. *)
Lemma getitem_unique df name s c :
  getitem df name = Ok (ItemSeries s) -> c ∈ columns df -> c.1 = name ->
  c = (name, s).
Proof.
  intros Hg%getitem_series Hin Hc.
  assert (c ∈ filter (fun c => c.1 = name) (columns df)) as Hin'
    by (by apply list_elem_of_filter).
  rewrite Hg in Hin'. by apply list_elem_of_singleton in Hin'.
Qed.

Lemma contains_false df name :
  contains df name = false <-> getitem df name = Raise (Exn KeyError name).
Proof.
  unfold contains, getitem. rewrite bool_decide_eq_false. split.
  - intros Hnin. rewrite filter_none; [done|].
    apply Forall_forall. intros c Hc Hn. apply Hnin.
    apply list_elem_of_fmap. by exists c.
  - intros Hg Hin. apply list_elem_of_fmap in Hin as (c & -> & Hc).
    assert (c ∈ filter (fun c' => c'.1 = c.1) (columns df)) as Hin
      by (by apply list_elem_of_filter).
    destruct (filter _ (columns df)) as [|? [|? ?]]; [|done..].
    by apply elem_of_nil in Hin.
Qed.

Lemma contains_true df name :
  contains df name = true <-> exists item, getitem df name = Ok item.
Proof.
  destruct (contains df name) eqn:Hc.
  - split; [intros _|done]. unfold getitem.
    destruct (filter _ (columns df)) as [|? [|? ?]] eqn:Hf; eauto.
    apply not_false_iff_true in Hc. destruct Hc. apply contains_false.
    unfold getitem. by rewrite Hf.
  - apply contains_false in Hc. rewrite Hc. split; [done|by intros [? ?]].
Qed.

Lemma wf_getitem df name s :
  wf df -> getitem df name = Ok (ItemSeries s) -> series_len s = len df.
Proof.
  intros Hwf Hg%getitem_elem_of. unfold wf in Hwf.
  rewrite Forall_forall in Hwf. by apply Hwf in Hg.
Qed.

(* ================================================================== *)
(** * The KPI sequence *)
(* ================================================================== *)

Lemma duracion_block_titles df d :
  duracion_block df = Ok d ->
  title <$> d = if contains df Duracion then [py "Duración Promedio"] else [].
Proof.
  unfold duracion_block. destruct (contains df Duracion); result_cases;
    intros ?; by simplify_eq.
Qed.

Lemma vencimientos_block_titles now df v :
  vencimientos_block now df = Ok v ->
  title <$> v
  = if contains df Fecha_Limite then [py "Próximos Vencimientos"] else [].
Proof.
  unfold vencimientos_block. destruct (contains df Fecha_Limite);
    result_cases; intros ?; by simplify_eq.
Qed.

Lemma actuacion_block_titles P df a :
  actuacion_block P df = Ok a ->
  title <$> a = if contains df Actuacion then [py "Actuación más Común"] else [].
Proof.
  unfold actuacion_block. destruct (contains df Actuacion); result_cases;
    intros ?; by simplify_eq.
Qed.

(** Whenever a sequence is returned, it is the total followed by the
    records of the blocks, titled by the columns present. *)
Lemma get_kpi_metrics_titles P now df kpis :
  get_kpi_metrics P now df = Ok kpis ->
  head kpis = Some (total_kpi (len df)) /\
  title <$> kpis = expected_titles df.
Proof.
  rewrite get_kpi_metrics_blocks. intros Hk.
  destruct (duracion_block df) as [d|] eqn:Hd; [|done].
  destruct (vencimientos_block now df) as [v|] eqn:Hv; [|done].
  destruct (actuacion_block P df) as [a|] eqn:Ha; [|done].
  injection Hk as <-. split; [done|].
  unfold expected_titles. rewrite fmap_cons, !fmap_app.
  by rewrite (duracion_block_titles _ _ Hd),
    (vencimientos_block_titles _ _ _ Hv), (actuacion_block_titles _ _ _ Ha).
Qed.

Lemma value_counts_nonempty {A : Type} `{EqDecision A}
    (xs : list (option A)) :
  (0 < notna_count xs)%nat -> value_counts xs <> [].
Proof.
  intros Hpos Hnil. pose proof (value_counts_sum xs) as Hs.
  rewrite Hnil in Hs. simpl in Hs. lia.
Qed.

Lemma notna_count_fmap {A B : Type} (f : A -> B) (xs : list (option A)) :
  notna_count ((fun c : option A => f <$> c) <$> xs) = notna_count xs.
Proof.
  rewrite <-!omap_id_length.
  induction xs as [|[x|] xs IH]; simpl; [done|by f_equal|done].
Qed.

Lemma series_value_counts_nonempty s :
  (0 < series_count s)%nat ->
  exists e vc, series_value_counts (ItemSeries s) = Ok (e :: vc).
Proof.
  intros Hpos. destruct s as [xs|xs|xs]; simpl in *.
  - destruct (value_counts ((fun c : option Q => Q2Qc <$> c) <$> xs))
      as [|e vc] eqn:Hvc.
    + apply value_counts_nonempty in Hvc; [done|].
      by rewrite notna_count_fmap.
    + by eexists _, _.
  - destruct (value_counts xs) as [|e vc] eqn:Hvc.
    + by apply value_counts_nonempty in Hvc.
    + by eexists _, _.
  - destruct (value_counts xs) as [|e vc] eqn:Hvc.
    + by apply value_counts_nonempty in Hvc.
    + by eexists _, _.
Qed.

Lemma blocks_ready P now df :
  kpi_ready df ->
  exists d v a, duracion_block df = Ok d /\
    vencimientos_block now df = Ok v /\ actuacion_block P df = Ok a.
Proof.
  intros (HD & HF & HA).
  assert (exists d, duracion_block df = Ok d) as [d Hd].
  { unfold duracion_block. destruct (contains df Duracion); [|by eexists].
    destruct (HD eq_refl) as [xs ->]. by eexists. }
  assert (exists v, vencimientos_block now df = Ok v) as [v Hv].
  { unfold vencimientos_block.
    destruct (contains df Fecha_Limite); [|by eexists].
    destruct (HF eq_refl) as [ds ->]. by eexists. }
  assert (exists a, actuacion_block P df = Ok a) as [a Ha].
  { unfold actuacion_block. destruct (contains df Actuacion); [|by eexists].
    destruct (HA eq_refl) as (s & -> & Hpos).
    destruct (series_value_counts_nonempty s Hpos) as (e & vc & Hvc).
    unfold mbind, result_bind. rewrite Hvc. by eexists. }
  by exists d, v, a.
Qed.

(** C9.  For every frame: whenever a sequence is returned, it begins with
    the total-count record, whose value is the number of rows, and the
    titles that follow are, in this order, those of the duration,
    upcoming-deadline and most-frequent-action records, each there exactly
    when its column is; in particular, without a [Duración] column no
    record is titled as the duration one.  And a sequence is returned on
    every frame whose columns the blocks accept. *)
Theorem kpi_sequence_order (P : Parsers) (now : Z) (df : DataFrame) :
  (forall kpis,
     get_kpi_metrics P now df = Ok kpis ->
     head kpis = Some (total_kpi (len df)) /\
     value (total_kpi (len df)) = VInt (Z.of_nat (len df)) /\
     title <$> kpis
     = py "Total de Casos"
         :: (if contains df Duracion then [py "Duración Promedio"] else [])
         ++ (if contains df Fecha_Limite
             then [py "Próximos Vencimientos"] else [])
         ++ (if contains df Actuacion then [py "Actuación más Común"] else []) /\
     (contains df Duracion = false ->
        Forall (fun k => title k <> py "Duración Promedio") kpis)) /\
  (kpi_ready df -> exists kpis, get_kpi_metrics P now df = Ok kpis).
Proof.
  split.
  - intros kpis Hk.
    destruct (get_kpi_metrics_titles _ _ _ _ Hk) as [Hhead Htitles].
    repeat split; try done.
    intros Hno. apply Forall_forall. intros k Hin Ht.
    assert (py "Duración Promedio" ∈ expected_titles df) as Hin'.
    { rewrite <-Htitles, <-Ht. by apply list_elem_of_fmap_2. }
    unfold expected_titles in Hin'. rewrite Hno in Hin'.
    destruct (contains df Fecha_Limite), (contains df Actuacion);
      simpl in Hin';
      repeat (apply elem_of_cons in Hin' as [Hin'|Hin'];
              [by vm_compute in Hin'|]);
      by apply elem_of_nil in Hin'.
  - intros Hready.
    destruct (blocks_ready P now df Hready) as (d & v & a & Hd & Hv & Ha).
    exists (total_kpi (len df) :: d ++ v ++ a).
    by rewrite get_kpi_metrics_blocks, Hd, Hv, Ha.
Qed.

Lemma five_cases_ready : kpi_ready five_cases.
Proof.
  repeat split; intros _.
  - by eexists.
  - by eexists.
  - eexists. split; [reflexivity|]. vm_compute. lia.
Defined.

Lemma kpi_sequence_order_witness :
  kpi_ready five_cases /\
  exists kpis,
    get_kpi_metrics Plain.parsers 1000 five_cases = Ok kpis /\
    head kpis = Some (total_kpi 5) /\
    title <$> kpis
    = [py "Total de Casos"; py "Duración Promedio";
       py "Próximos Vencimientos"; py "Actuación más Común"].
Proof.
  split; [exact five_cases_ready|].
  destruct (kpi_sequence_order Plain.parsers 1000 five_cases)
    as [Hshape Hreturns].
  destruct (Hreturns five_cases_ready) as [kpis Hk].
  destruct (Hshape kpis Hk) as (Hhead & _ & Htitles & _).
  exists kpis. split; [exact Hk|]. split; [exact Hhead|exact Htitles].
Defined.

(* ================================================================== *)
(** * Upcoming deadlines *)
(* ================================================================== *)

Lemma mask_filter_between {A : Type} (now : Z) (ds : list (option Z))
    (idx : list A) :
  length idx = length ds ->
  length
    (mask_filter
       ((fun c : option Z => match c with
                  | Some t => (now <=? t) && (t <=? now + days30)
                  | None => false
                  end) <$> ds) idx)
  = upcoming now ds.
Proof.
  unfold upcoming, mask_filter. revert idx.
  induction ds as [|c ds IH]; intros [|i idx] Hlen; try done.
  injection Hlen as Hlen. specialize (IH idx Hlen).
  rewrite length_fmap in IH |- *. csimpl. rewrite filter_cons. simpl.
  destruct c as [t|]; simpl.
  - rewrite filter_cons. unfold in_window at 1.
    destruct (Z.leb_spec now t), (Z.leb_spec t (now + days30)); simpl;
      case_decide; try lia; simpl; by f_equal.
  - done.
Qed.

Lemma vencimientos_block_dates now df ds :
  wf df ->
  getitem df Fecha_Limite = Ok (ItemSeries (DateSeries ds)) ->
  vencimientos_block now df = Ok [vencimientos_kpi (upcoming now ds)].
Proof.
  intros Hwf Hg. unfold vencimientos_block.
  assert (contains df Fecha_Limite = true) as -> by (apply contains_true; eauto).
  rewrite Hg. simpl. repeat f_equal.
  unfold len. simpl. apply mask_filter_between.
  symmetry. exact (wf_getitem _ _ _ Hwf Hg).
Qed.

Lemma vencimientos_block_absent now df :
  contains df Fecha_Limite = false -> vencimientos_block now df = Ok [].
Proof. unfold vencimientos_block. by intros ->. Qed.

(** C7.  With a [Fecha Límite] column of instants, the sequence holds,
    after the duration record and before the action record, one
    upcoming-deadline record whose value is the number of rows whose
    deadline [t] satisfies [now <= t <= now + 30 days], both ends included,
    for the instant [now] read at the call; a missing deadline is not
    counted.  Without the column, no such record is there. *)
Theorem upcoming_deadline_count (P : Parsers) (now : Z) (df : DataFrame)
    (d a : list KPI) :
  wf df ->
  duracion_block df = Ok d ->
  actuacion_block P df = Ok a ->
  (forall ds,
     getitem df Fecha_Limite = Ok (ItemSeries (DateSeries ds)) ->
     get_kpi_metrics P now df
     = Ok (total_kpi (len df) :: d ++ [vencimientos_kpi (upcoming now ds)] ++ a)
     /\ value (vencimientos_kpi (upcoming now ds))
        = VInt (Z.of_nat (length (filter
             (fun t => now <= t <= now + 30 * 86400 * 1000000000)
             (omap id ds))))) /\
  (contains df Fecha_Limite = false ->
     get_kpi_metrics P now df = Ok (total_kpi (len df) :: d ++ a) /\
     Forall (fun k => title k <> py "Próximos Vencimientos")
       (total_kpi (len df) :: d ++ a)).
Proof.
  intros Hwf Hd Ha. split.
  - intros ds Hg. split; [|done].
    rewrite get_kpi_metrics_blocks, Hd, Ha.
    by rewrite (vencimientos_block_dates now df ds Hwf Hg).
  - intros Hno.
    assert (get_kpi_metrics P now df = Ok (total_kpi (len df) :: d ++ a))
      as Hk.
    { rewrite get_kpi_metrics_blocks, Hd, Ha.
      by rewrite (vencimientos_block_absent now df Hno). }
    split; [done|].
    apply get_kpi_metrics_titles in Hk as [_ Ht].
    apply Forall_forall. intros k Hin Hk.
    assert (py "Próximos Vencimientos" ∈ expected_titles df) as Hin'.
    { rewrite <-Ht, <-Hk. by apply list_elem_of_fmap_2. }
    unfold expected_titles in Hin'. rewrite Hno in Hin'.
    destruct (contains df Duracion), (contains df Actuacion);
      simpl in Hin';
      repeat (apply elem_of_cons in Hin' as [Hin'|Hin'];
              [by vm_compute in Hin'|]);
      by apply elem_of_nil in Hin'.
Qed.

Lemma five_cases_wf : wf five_cases.
Proof. repeat constructor. Defined.

Lemma upcoming_deadline_count_witness :
  upcoming 1000 [Some 1000; Some (1000 + days30); Some 999;
                 Some (1001 + days30); None] = 2%nat /\
  get_kpi_metrics Plain.parsers 1000 five_cases
  = Ok (total_kpi 5
          :: [duracion_kpi (frat 15) (fsqrt 50)]
          ++ [vencimientos_kpi 2]
          ++ [actuacion_kpi (py "A") 3]).
Proof.
  split; [reflexivity|].
  refine (proj1 (proj1
    (upcoming_deadline_count Plain.parsers 1000 five_cases
       [duracion_kpi (frat 15) (fsqrt 50)] [actuacion_kpi (py "A") 3]
       five_cases_wf _ _) _ eq_refl)); by vm_compute.
Defined.

(* ================================================================== *)
(** * The most frequent action *)
(* ================================================================== *)






(* ================================================================== *)
(** * Mean and standard deviation *)
(* ================================================================== *)

Lemma round_half_even_comp y y' :
  (y == y')%Q -> Fmt.round_half_even y = Fmt.round_half_even y'.
Proof.
  intros Hy. unfold Fmt.round_half_even.
  rewrite (Qfloor_comp _ _ Hy).
  assert (y - inject_Z (Qfloor y') == y' - inject_Z (Qfloor y'))%Q as ->
    by (by rewrite Hy).
  done.
Qed.

Lemma fmt1_feq x y : feq x y -> Fmt.fmt1 x = Fmt.fmt1 y.
Proof.
  destruct 1 as [|q q' Hq|v v' Hv]; simpl; [done|..].
  - unfold Fmt.tenths.
    rewrite (round_half_even_comp (10 * q) (10 * q')) by (by rewrite Hq).
    by rewrite Hq.
  - unfold Fmt.tenths_sqrt.
    assert (400 * v == 400 * v')%Q as Hw by (by rewrite Hv).
    rewrite (Qfloor_comp _ _ Hw).
    by rewrite Hw.
Qed.

Lemma nansum_Qsum xs : (nansum xs == Qsum (omap id xs))%Q.
Proof.
  unfold nansum, Qsum. induction xs as [|[x|] xs IH]; csimpl.
  - done.
  - by rewrite IH.
  - rewrite IH. ring.
Qed.

Lemma nansqr_Qsum xs avg m :
  (avg == m)%Q ->
  (foldr Qplus 0 ((fun x : option Q => match x with
                            | Some v => (avg - v) * (avg - v)
                            | None => 0
                            end) <$> xs)
   == Qsum ((fun x => (x - m) * (x - m)) <$> omap id xs))%Q.
Proof.
  intros Havg. unfold Qsum. induction xs as [|[x|] xs IH]; csimpl.
  - done.
  - rewrite IH, Havg. ring.
  - rewrite IH. ring.
Qed.

Lemma nanmean_mean xs : feq (nanmean xs) (mean (omap id xs)).
Proof.
  unfold nanmean, mean. rewrite omap_id_length.
  destruct (notna_count xs =? 0)%nat; constructor.
  by rewrite nansum_Qsum.
Qed.

Lemma nanstd_sample_std xs : feq (nanstd xs) (sample_std (omap id xs)).
Proof.
  unfold nanstd, nanvar, sample_std. rewrite omap_id_length.
  destruct (notna_count xs <=? 1)%nat; constructor.
  rewrite nansqr_Qsum; [done|]. by rewrite nansum_Qsum.
Qed.

Lemma duracion_kpi_feq m m' s s' :
  feq m m' -> feq s s' -> duracion_kpi m s = duracion_kpi m' s'.
Proof.
  intros Hm Hs. unfold duracion_kpi.
  by rewrite (fmt1_feq _ _ Hm), (fmt1_feq _ _ Hs).
Qed.

Lemma duracion_block_numbers df xs :
  getitem df Duracion = Ok (ItemSeries (NumSeries xs)) ->
  duracion_block df
  = Ok [duracion_kpi (mean (omap id xs)) (sample_std (omap id xs))].
Proof.
  intros Hg. unfold duracion_block.
  assert (contains df Duracion = true) as -> by (apply contains_true; eauto).
  rewrite Hg. simpl.
  by rewrite (duracion_kpi_feq _ _ _ _ (nanmean_mean xs) (nanstd_sample_std xs)).
Qed.

(* ================================================================== *)
(** * What one decimal place means *)
(* ================================================================== *)

(** The tenths shown are the nearest to ten times the number. *)
Lemma tenths_nearest q :
  (Qabs (10 * q - inject_Z (Fmt.tenths q)) <= 1 # 2)%Q.
Proof.
  unfold Fmt.tenths, Fmt.round_half_even.
  set (y := (10 * q)%Q).
  pose proof (Qfloor_le y) as Hlo. pose proof (Qlt_floor y) as Hhi.
  rewrite inject_Z_plus in Hhi. change (inject_Z 1) with 1%Q in Hhi.
  apply Qabs_Qle_condition.
  destruct (y - inject_Z (Qfloor y) ?= 1 # 2)%Q eqn:Hc.
  - apply Qeq_alt in Hc. destruct (Z.even (Qfloor y));
      rewrite ?inject_Z_plus; change (inject_Z 1) with 1%Q; lra.
  - apply Qlt_alt in Hc. lra.
  - apply Qgt_alt in Hc. rewrite inject_Z_plus. change (inject_Z 1) with 1%Q. lra.
Qed.

(** For a square root: [k - 1/2 <= 10 sqrt v <= k + 1/2], squared. *)
Lemma tenths_sqrt_nearest v :
  (0 <= v)%Q ->
  let k := Fmt.tenths_sqrt v in
  0 <= k /\
  (2 * k - 1 <= 0 \/ (inject_Z ((2 * k - 1) * (2 * k - 1)) <= 400 * v)%Q) /\
  (400 * v <= inject_Z ((2 * k + 1) * (2 * k + 1)))%Q.
Proof.
  intros Hv. unfold Fmt.tenths_sqrt.
  set (w := (400 * v)%Q).
  assert (0 <= w)%Q as Hw by (unfold w; lra).
  pose proof (Qfloor_le w) as Hlo. pose proof (Qlt_floor w) as Hhi.
  set (n := Qfloor w) in *.
  assert (0 <= n) as Hn.
  { change 0 with (Qfloor 0). by apply Qfloor_resp_le. }
  pose proof (Z.sqrt_spec n Hn) as Hs. simpl in Hs.
  pose proof (Z.sqrt_nonneg n) as Hs0.
  set (s := Z.sqrt n) in *.
  set (k0 := (s + 1) / 2).
  assert (2 * k0 - 1 <= s <= 2 * k0) as Hk0.
  { unfold k0. pose proof (Z.div_mod (s + 1) 2 ltac:(done)).
    pose proof (Z.mod_pos_bound (s + 1) 2 ltac:(done)). lia. }
  clearbody k0.
  assert (inject_Z (n + 1) <= inject_Z ((2 * k0 + 1) * (2 * k0 + 1)))%Q as Hup.
  { rewrite <-Zle_Qle. nia. }
  assert (2 * k0 - 1 <= 0 \/
          (inject_Z ((2 * k0 - 1) * (2 * k0 - 1)) <= inject_Z n)%Q) as Hdown.
  { destruct (decide (2 * k0 - 1 <= 0)); [by left|right].
    rewrite <-Zle_Qle. nia. }
  destruct (Z.odd s && Qeq_bool w (inject_Z (s * s)) && Z.odd k0) eqn:Htie;
    simpl.
  - apply andb_prop in Htie as [Htie Hodd]. apply andb_prop in Htie as [Hso Heq].
    apply Qeq_bool_eq in Heq.
    assert (s = 2 * k0 - 1) as Hsk.
    { destruct (decide (s = 2 * k0)) as [->|]; [|lia].
      by rewrite Z.odd_mul in Hso. }
    assert (1 <= k0).
    { destruct (decide (k0 = 0)) as [->|]; [done|lia]. }
    split; [lia|]. split.
    + destruct (decide (2 * (k0 - 1) - 1 <= 0)); [by left|right].
      rewrite Heq, <-Zle_Qle. nia.
    + rewrite Heq, <-Zle_Qle. nia.
  - split; [lia|]. split.
    + destruct Hdown as [?|Hd]; [by left|right]. lra.
    + lra.
Qed.

(* ================================================================== *)
(** * The duration record *)
(* ================================================================== *)



(* ================================================================== *)
(** * Columns without data *)
(* ================================================================== *)







(* ================================================================== *)
(** * Stripped strings *)
(* ================================================================== *)

Lemma lstrip_head s c : head (Py.lstrip s) = Some c -> Py.isspace c = false.
Proof.
  induction s as [|a s IH]; simpl; [done|].
  destruct (Py.isspace a) eqn:Ha; [done|]. simpl. by intros [= <-].
Qed.

Lemma lstrip_suffix s : exists pre, s = pre ++ Py.lstrip s.
Proof.
  induction s as [|a s [pre IH]]; simpl; [by exists []|].
  destruct (Py.isspace a).
  - exists (a :: pre). simpl. by f_equal.
  - by exists [].
Qed.

Lemma lstrip_last s c : last (Py.lstrip s) = Some c -> last s = Some c.
Proof.
  destruct (lstrip_suffix s) as [pre Hs]. intros Hl.
  rewrite Hs at 1. rewrite last_app, Hl. done.
Qed.

Lemma lstrip_id s :
  (forall c, head s = Some c -> Py.isspace c = false) -> Py.lstrip s = s.
Proof.
  destruct s as [|a s]; simpl; [done|]. intros Hh.
  by rewrite (Hh a eq_refl).
Qed.

Lemma strip_stripped s : stripped (Py.strip s).
Proof.
  unfold Py.strip, Py.rstrip. split; intros c.
  - rewrite head_reverse. intros Hl%lstrip_last.
    rewrite last_reverse in Hl. by apply lstrip_head in Hl.
  - rewrite last_reverse. apply lstrip_head.
Qed.

Lemma strip_id s : stripped s -> Py.strip s = s.
Proof.
  intros [Hh Hl]. unfold Py.strip, Py.rstrip.
  rewrite (lstrip_id s Hh). rewrite lstrip_id.
  - apply reverse_involutive.
  - intros c. rewrite head_reverse. apply Hl.
Qed.

Lemma strip_idemp s : Py.strip (Py.strip s) = Py.strip s.
Proof. apply strip_id, strip_stripped. Qed.

Lemma strip_all_space s :
  Forall (fun c => Py.isspace c = true) s -> Py.strip s = [].
Proof.
  intros Hall. unfold Py.strip, Py.rstrip.
  assert (Py.lstrip s = []) as ->; [|done].
  induction Hall as [|a s Ha _ IH]; simpl; [done|]. by rewrite Ha.
Qed.

(* ================================================================== *)
(** * A CSV that does not parse *)
(* ================================================================== *)

(** C5.  When reading the first CSV file found raises [e], the call
    reports "Error al cargar el archivo: " followed by [str(e)], returns
    the empty frame and propagates nothing; the JSON listing, the JSON
    reader and the sample frame play no part in the result. *)
Theorem csv_parse_failure (P : Parsers) (env : Env) (f : pystr)
    (rest : list pystr) (e : exn) :
  csv_files env = f :: rest ->
  read_csv env f = Raise e ->
  load_data P env
  = ([py "Error al cargar el archivo: " ++ exn_str e], Ok empty_frame) /\
  forall jsons reader frame,
    load_data P {| csv_files := csv_files env; read_csv := read_csv env;
                   json_files := jsons; read_json := reader;
                   sample := frame |}
    = load_data P env.
Proof.
  intros Hcsv Hread.
  assert (forall env', csv_files env' = csv_files env ->
            read_csv env' = read_csv env ->
            load_data P env'
            = ([py "Error al cargar el archivo: " ++ exn_str e],
               Ok empty_frame)) as Hany.
  { intros env' Hc Hr. unfold load_data, try_csv.
    by rewrite Hc, Hcsv, Hr, Hread. }
  split; [by apply Hany|].
  intros jsons reader frame. by rewrite !Hany.
Qed.

Lemma csv_parse_failure_witness :
  load_data Plain.parsers broken_csv_env
  = ([py "Error al cargar el archivo: " ++ exn_str decode_error],
     Ok empty_frame).
Proof.
  exact (proj1 (csv_parse_failure Plain.parsers broken_csv_env
                  (py "data/casos.csv") [] decode_error eq_refl eq_refl)).
Defined.

(* ================================================================== *)
(** * Column-wise steps *)
(* ================================================================== *)

Lemma filter_label_fmap (g : pystr * Series -> pystr * Series)
    (y : pystr) (cols : list (pystr * Series)) :
  (forall c, (g c).1 = c.1) ->
  filter (fun c => c.1 = y) (g <$> cols)
  = g <$> filter (fun c => c.1 = y) cols.
Proof.
  intros Hg. induction cols as [|c cols IH]; [done|].
  rewrite fmap_cons, !filter_cons, Hg.
  destruct (decide (c.1 = y)); by rewrite IH.
Qed.

Lemma getitem_map_columns g df y s :
  (forall c, (g c).1 = c.1) ->
  getitem df y = Ok (ItemSeries s) ->
  getitem (map_columns g df) y = Ok (ItemSeries (g (y, s)).2).
Proof.
  intros Hg Hs%getitem_series. apply getitem_series. simpl.
  rewrite filter_label_fmap, Hs by done. simpl.
  specialize (Hg (y, s)). by destruct (g (y, s)); simpl in *; subst.
Qed.

Lemma getitem_map_columns_inv g df y s' :
  (forall c, (g c).1 = c.1) ->
  getitem (map_columns g df) y = Ok (ItemSeries s') ->
  exists s, getitem df y = Ok (ItemSeries s) /\ s' = (g (y, s)).2.
Proof.
  intros Hg Hs%getitem_series. simpl in Hs.
  rewrite filter_label_fmap in Hs by done.
  destruct (filter (fun c => c.1 = y) (columns df))
    as [|[n s] [|? ?]] eqn:Hf; try done.
  assert (n = y) as ->.
  { assert ((n, s) ∈ filter (fun c => c.1 = y) (columns df)) as Hin
      by (rewrite Hf; by left).
    by apply list_elem_of_filter in Hin as [? _]. }
  exists s. split; [by apply getitem_series|].
  simpl in Hs. injection Hs as Hs. by rewrite Hs.
Qed.

Lemma contains_map_columns g df y :
  (forall c, (g c).1 = c.1) ->
  contains (map_columns g df) y = contains df y.
Proof.
  intros Hg. unfold contains. simpl.
  rewrite <-list_fmap_compose.
  by rewrite (list_fmap_ext (fst ∘ g) fst (columns df))
    by (intros; apply Hg).
Qed.

Lemma select_dtypes_object_map_columns g df :
  shape_preserving g ->
  select_dtypes_object (map_columns g df) = select_dtypes_object df.
Proof.
  intros Hg. unfold select_dtypes_object. simpl.
  induction (columns df) as [|c cols IH]; [done|].
  rewrite fmap_cons, !filter_cons.
  destruct (Hg c) as [Hl Ho]. rewrite Ho.
  destruct (decide (is_object c.2 = true)); csimpl; by rewrite IH, ?Hl.
Qed.

Lemma map_columns_compose g h df :
  map_columns g (map_columns h df) = map_columns (g ∘ h) df.
Proof. unfold map_columns. simpl. by rewrite <-list_fmap_compose. Qed.

Lemma map_columns_ext g h df :
  (forall c, c ∈ columns df -> g c = h c) ->
  map_columns g df = map_columns h df.
Proof.
  intros Hgh. unfold map_columns. f_equal.
  apply list_eq_Forall2, Forall2_fmap, Forall_Forall2_diag.
  by apply Forall_forall.
Qed.

(** Assigning [f] of the one series labelled [x] is a column-wise map. *)
Lemma setitem_map_columns (f : Series -> Series) df x s0 :
  getitem df x = Ok (ItemSeries s0) ->
  setitem df x (f s0)
  = map_columns (fun c => if decide (c.1 = x) then (c.1, f c.2) else c) df.
Proof.
  intros Hg. unfold setitem, map_columns.
  assert (contains df x = true) as -> by (apply contains_true; eauto).
  f_equal. apply list_eq_Forall2, Forall2_fmap, Forall_Forall2_diag.
  apply Forall_forall. intros c Hin.
  destruct (decide (c.1 = x)) as [Hc|]; [|done].
  by rewrite (getitem_unique df x s0 c Hg Hin Hc).
Qed.

Lemma map_columns_id df : map_columns (fun c => c) df = df.
Proof. destruct df. unfold map_columns. simpl. f_equal. apply list_fmap_id. Qed.

Lemma is_object_text s : is_object s = true -> exists xs, s = ObjSeries xs.
Proof. destruct s; try done. by eexists. Qed.

(** A loop over labels of text columns whose body assigns [f] of the
    column. *)
Section text_loop.
Variable step : DataFrame -> pystr -> result DataFrame.
Variable f : Series -> Series.
Hypothesis step_text : forall df x xs,
  getitem df x = Ok (ItemSeries (ObjSeries xs)) ->
  step df x = Ok (setitem df x (f (ObjSeries xs))).
Hypothesis f_shape : forall s, is_object (f s) = is_object s.
Hypothesis f_idemp : forall s, f (f s) = f s.

Lemma on_label_shape x : shape_preserving (on_label f x).
Proof.
  intros c. unfold on_label. destruct (decide (c.1 = x)); [|done].
  split; [done|apply f_shape].
Qed.

Lemma loop_exact names df :
  (forall n, n ∈ names ->
     exists xs, getitem df n = Ok (ItemSeries (ObjSeries xs))) ->
  for_each step df names = Ok (map_columns (on_labels f names) df).
Proof.
  revert df. induction names as [|x rest IH]; intros df Hpre.
  - simpl. by rewrite <-(map_columns_id df) at 1.
  - destruct (Hpre x) as [xs Hx]; [by left|].
    simpl. rewrite (step_text df x xs Hx).
    rewrite (setitem_map_columns f df x _ Hx). simpl.
    change (fun c => if decide (c.1 = x) then (c.1, f c.2) else c)
      with (on_label f x).
    rewrite IH.
    + rewrite map_columns_compose. f_equal. apply map_columns_ext.
      intros c _. unfold on_labels, on_label. simpl.
      destruct (decide (c.1 = x)) as [Hc|Hc]; simpl.
      * rewrite (bool_decide_eq_true_2 (c.1 ∈ x :: rest)) by (rewrite Hc; by left).
        destruct (bool_decide (c.1 ∈ rest)); by rewrite ?f_idemp.
      * rewrite (bool_decide_ext (c.1 ∈ x :: rest) (c.1 ∈ rest)); [done|].
        rewrite elem_of_cons.
        split; [intros [?|?]; [congruence|done]|by right].
    + intros n Hn. destruct (Hpre n) as [xs' Hn']; [by right|].
      rewrite (getitem_map_columns (on_label f x) df n _
                 (fun c => proj1 (on_label_shape x c)) Hn').
      destruct (on_label_shape x (n, ObjSeries xs')) as [_ Ho].
      apply is_object_text in Ho as [ys ->]. by eexists.
Qed.
End text_loop.

Lemma fill_series_shape s : is_object (fill_series s) = is_object s.
Proof. by destruct s. Qed.

Lemma strip_series_shape s : is_object (strip_series s) = is_object s.
Proof. by destruct s. Qed.

Lemma fill_series_idemp s : fill_series (fill_series s) = fill_series s.
Proof.
  destruct s as [xs|xs|xs]; simpl; try done. f_equal.
  rewrite <-list_fmap_compose. apply list_fmap_ext. by intros.
Qed.

Lemma strip_series_idemp s : strip_series (strip_series s) = strip_series s.
Proof.
  destruct s as [xs|xs|xs]; simpl; try done. f_equal.
  rewrite <-list_fmap_compose. apply list_fmap_ext.
  intros _ [t|] _; simpl; [|done]. by rewrite strip_idemp.
Qed.

Lemma fillna_step_text df x xs :
  getitem df x = Ok (ItemSeries (ObjSeries xs)) ->
  fillna_step df x = Ok (setitem df x (fill_series (ObjSeries xs))).
Proof. intros Hg. unfold fillna_step. by rewrite Hg. Qed.

Lemma strip_step_text df x xs :
  getitem df x = Ok (ItemSeries (ObjSeries xs)) ->
  strip_step df x = Ok (setitem df x (strip_series (ObjSeries xs))).
Proof. intros Hg. unfold strip_step. by rewrite Hg. Qed.

(** The strip loop goes through only if every label it visits names one
    text column. *)
Lemma strip_loop_pre names df df' :
  for_each strip_step df names = Ok df' ->
  forall n, n ∈ names ->
    exists xs, getitem df n = Ok (ItemSeries (ObjSeries xs)).
Proof.
  revert df. induction names as [|x rest IH]; intros df Hloop n Hn.
  - by apply elem_of_nil in Hn.
  - simpl in Hloop.
    destruct (strip_step df x) as [dfx|] eqn:Hstep; [|done].
    simpl in Hloop.
    assert (exists xs, getitem df x = Ok (ItemSeries (ObjSeries xs)))
      as [xs Hx].
    { unfold strip_step in Hstep.
      destruct (getitem df x) as [[[?|?|xs]|?]|]; try done. by eexists. }
    apply elem_of_cons in Hn as [->|Hn]; [by eexists|].
    destruct (decide (n = x)) as [->|Hne]; [by eexists|].
    rewrite (strip_step_text df x xs Hx) in Hstep. injection Hstep as <-.
    pose proof (setitem_map_columns strip_series df x _ Hx) as Hset.
    simpl in Hset. rewrite Hset in Hloop. clear Hset.
    destruct (IH _ Hloop n Hn) as [xs' Hn'].
    apply getitem_map_columns_inv in Hn' as (s & Hs & Heq).
    2:{ intros c. simpl. by destruct (decide (c.1 = x)). }
    simpl in Heq. rewrite decide_False in Heq by done. simpl in Heq.
    subst s. by eexists.
Qed.

(** The fill loop always goes through and keeps labels and dtypes. *)
Lemma fill_loop_shape names df :
  (forall n, n ∈ names -> contains df n = true) ->
  exists g, shape_preserving g /\
    for_each fillna_step df names = Ok (map_columns g df).
Proof.
  revert df. induction names as [|x rest IH]; intros df Hpre.
  - exists (fun c => c). split; [done|]. simpl. by rewrite map_columns_id.
  - assert (exists g1, shape_preserving g1 /\
              fillna_step df x = Ok (map_columns g1 df)) as (g1 & Hg1 & Hstep).
    { destruct (proj1 (contains_true df x) (Hpre x ltac:(by left)))
        as [item Hitem].
      destruct item as [[xs|xs|xs]|cs].
      1,2,4: exists (fun c => c); split; [done|];
        unfold fillna_step; rewrite Hitem; simpl; by rewrite map_columns_id.
      exists (on_label fill_series x). split.
      - apply on_label_shape, fill_series_shape.
      - rewrite (fillna_step_text df x xs Hitem).
        by rewrite (setitem_map_columns fill_series df x _ Hitem). }
    destruct (IH (map_columns g1 df)) as (g2 & Hg2 & Hloop).
    { intros n Hn. rewrite contains_map_columns by (intros; apply Hg1).
      apply Hpre. by right. }
    exists (g2 ∘ g1). split.
    + intros c. destruct (Hg1 c) as [H1 H2], (Hg2 (g1 c)) as [H3 H4].
      split; simpl; congruence.
    + simpl. rewrite Hstep. simpl. by rewrite Hloop, map_columns_compose.
Qed.

Lemma select_dtypes_object_elem df c :
  c ∈ columns df -> is_object c.2 = true -> c.1 ∈ select_dtypes_object df.
Proof.
  intros Hin Ho. unfold select_dtypes_object.
  apply list_elem_of_fmap_2. by apply list_elem_of_filter.
Qed.

Lemma select_dtypes_object_contains df n :
  n ∈ select_dtypes_object df -> contains df n = true.
Proof.
  unfold select_dtypes_object, contains. intros Hin.
  apply bool_decide_eq_true.
  apply list_elem_of_fmap in Hin as (c & -> & Hc).
  apply list_elem_of_filter in Hc as [_ Hc]. by apply list_elem_of_fmap_2.
Qed.

(** The two loops of [load_data] together: when they go through, every
    text column has been filled and then stripped, and nothing else has
    changed. *)
Lemma text_loops df1 df2 df3 :
  for_each fillna_step df1 (select_dtypes_object df1) = Ok df2 ->
  for_each strip_step df2 (select_dtypes_object df2) = Ok df3 ->
  df3 = map_columns (fun c => (c.1, strip_series (fill_series c.2))) df1.
Proof.
  intros Hfill Hstrip.
  destruct (fill_loop_shape (select_dtypes_object df1) df1)
    as (g & Hg & Hfill'); [apply select_dtypes_object_contains|].
  assert (df2 = map_columns g df1) as -> by congruence.
  clear Hfill'.
  rewrite (select_dtypes_object_map_columns g df1 Hg) in Hstrip.
  pose proof (strip_loop_pre _ _ _ Hstrip) as Hpre2.
  assert (forall n, n ∈ select_dtypes_object df1 ->
            exists xs, getitem df1 n = Ok (ItemSeries (ObjSeries xs)))
    as Hpre1.
  { intros n Hn. destruct (Hpre2 n Hn) as [xs' Hn'].
    apply getitem_map_columns_inv in Hn' as (s & Hs & Heq);
      [|intros; apply Hg].
    destruct (Hg (n, s)) as [_ Ho]. rewrite <-Heq in Ho. simpl in Ho.
    symmetry in Ho. apply is_object_text in Ho as [xs ->]. by eexists. }
  rewrite (loop_exact fillna_step fill_series fillna_step_text
             fill_series_shape fill_series_idemp _ _ Hpre1) in Hfill.
  assert (map_columns g df1
          = map_columns (on_labels fill_series (select_dtypes_object df1)) df1)
    as Hdf2 by congruence.
  rewrite (loop_exact strip_step strip_series strip_step_text
             strip_series_shape strip_series_idemp _ _ Hpre2) in Hstrip.
  assert (df3 = map_columns
                  (on_labels strip_series (select_dtypes_object df1))
                  (map_columns g df1)) as -> by congruence.
  rewrite Hdf2, map_columns_compose. apply map_columns_ext.
  intros c Hin. unfold on_labels. simpl.
  destruct (bool_decide (c.1 ∈ select_dtypes_object df1)) eqn:Hc; simpl.
  - by rewrite Hc.
  - rewrite Hc. destruct c as [n s]. simpl in *.
    destruct (is_object s) eqn:Ho.
    + apply bool_decide_eq_false in Hc. destruct Hc.
      by apply (select_dtypes_object_elem df1 (n, s)).
    + by destruct s.
Qed.

(* ================================================================== *)
(** * The normalisation as a whole *)
(* ================================================================== *)

Lemma to_numeric_series P s : to_numeric P (ItemSeries s) = Ok (num_series P s).
Proof. by destruct s. Qed.

Lemma to_datetime_series P s :
  to_datetime P (ItemSeries s) = Ok (date_series P s).
Proof. by destruct s. Qed.

Lemma map_columns_absent (f : Series -> Series) df x :
  contains df x = false ->
  map_columns (fun c => if decide (c.1 = x) then (c.1, f c.2) else c) df = df.
Proof.
  intros Hc. rewrite <-(map_columns_id df) at 2. apply map_columns_ext.
  intros c Hin. destruct (decide (c.1 = x)) as [Hx|]; [|done].
  apply bool_decide_eq_false in Hc. destruct Hc. rewrite <-Hx.
  by apply list_elem_of_fmap_2.
Qed.

Lemma take_at_seq {A : Type} `{Inhabited A} (l : list A) :
  take_at (seq 0 (length l)) l = l.
Proof.
  unfold take_at. apply list_eq. intros i.
  rewrite list_lookup_fmap.
  destruct (decide (i < length l)%nat) as [Hi|Hi].
  - rewrite lookup_seq_lt by done. simpl.
    destruct (lookup_lt_is_Some_2 l i Hi) as [x Hx].
    by rewrite (list_lookup_total_correct _ _ _ Hx).
  - rewrite lookup_seq_ge by lia. simpl. symmetry.
    apply lookup_ge_None. lia.
Qed.

Lemma series_take_seq s : series_take (seq 0 (series_len s)) s = s.
Proof. destruct s; simpl; by rewrite take_at_seq. Qed.

Lemma take_rows_seq df : wf df -> take_rows (seq 0 (len df)) df = df.
Proof.
  intros Hwf. destruct df as [idx cols]. unfold wf in Hwf.
  unfold take_rows. cbv [len index columns] in *.
  f_equal; [apply take_at_seq|].
  rewrite <-(list_fmap_id cols) at 2.
  apply list_eq_Forall2, Forall2_fmap, Forall_Forall2_diag.
  eapply Forall_impl; [exact Hwf|]. intros [n s] Hlen. simpl in *.
  by rewrite <-Hlen, series_take_seq.
Qed.

Lemma wf_map_columns g df :
  (forall c, series_len (g c).2 = series_len c.2) ->
  wf df -> wf (map_columns g df).
Proof.
  intros Hg Hwf. unfold wf, map_columns, len in *. simpl.
  apply Forall_fmap. eapply Forall_impl; [exact Hwf|].
  intros c Hc. simpl. by rewrite Hg.
Qed.

Lemma num_series_len P s : series_len (num_series P s) = series_len s.
Proof. destruct s; simpl; by rewrite ?length_fmap. Qed.

Lemma date_series_len P s : series_len (date_series P s) = series_len s.
Proof. destruct s; simpl; by rewrite ?length_fmap. Qed.

Lemma wf_converted P raw : wf raw -> wf (converted P raw).
Proof.
  intros Hwf. unfold converted.
  apply wf_map_columns.
  { intros c. unfold date_if. destruct (decide _); [|done].
    apply date_series_len. }
  apply wf_map_columns.
  { intros c. unfold num_if. destruct (decide _); [|done].
    apply num_series_len. }
  unfold wf, strip_columns, len in *. simpl. by apply Forall_fmap.
Qed.

Lemma duracion_step P df df1 :
  (if contains df Duracion then
     col ← getitem df Duracion;
     s ← to_numeric P col;
     Ok (setitem df Duracion s)
   else Ok df) = Ok df1 ->
  df1 = map_columns (num_if P) df.
Proof.
  destruct (contains df Duracion) eqn:Hc.
  - destruct (getitem df Duracion) as [[s0|cs]|] eqn:Hg; try done.
    unfold mbind, result_bind. rewrite to_numeric_series. intros [= <-].
    apply (setitem_map_columns (num_series P) df Duracion s0 Hg).
  - intros [= <-]. symmetry.
    apply (map_columns_absent (num_series P) df Duracion Hc).
Qed.

Lemma fecha_step P df df2 :
  wf df ->
  (if contains df Fecha_Limite then
     col ← getitem df Fecha_Limite;
     s ← to_datetime P col;
     sort_values (setitem df Fecha_Limite s) Fecha_Limite
   else Ok df) = Ok df2 ->
  df2 = take_rows (row_order (map_columns (date_if P) df))
          (map_columns (date_if P) df) /\
  (contains df Fecha_Limite = true ->
     exists s, getitem (map_columns (date_if P) df) Fecha_Limite
               = Ok (ItemSeries s)).
Proof.
  intros Hwf. destruct (contains df Fecha_Limite) eqn:Hc.
  - destruct (getitem df Fecha_Limite) as [[s0|cs]|] eqn:Hg; try done.
    unfold mbind, result_bind. rewrite to_datetime_series.
    rewrite (setitem_map_columns (date_series P) df Fecha_Limite s0 Hg).
    change (fun c => if decide (c.1 = Fecha_Limite)
                     then (c.1, date_series P c.2) else c) with (date_if P).
    unfold sort_values, row_order, mbind, result_bind.
    assert (getitem (map_columns (date_if P) df) Fecha_Limite
            = Ok (ItemSeries (date_series P s0))) as Hg'.
    { rewrite (getitem_map_columns (date_if P) df Fecha_Limite s0); [done| |done].
      intros c. unfold date_if. by destruct (decide _). }
    rewrite Hg'. intros [= <-]. split; [done|]. intros _. by eexists.
  - intros [= <-]. split; [|done].
    assert (map_columns (date_if P) df = df) as ->
      by apply (map_columns_absent (date_series P) df Fecha_Limite Hc).
    unfold row_order. apply contains_false in Hc. rewrite Hc.
    symmetry. by apply take_rows_seq.
Qed.

(** What [normalise] returns when it returns: the conversions, then the
    sort, then the two text passes. *)
Lemma normalise_spec P raw df :
  wf raw ->
  normalise P raw = Ok df ->
  df = map_columns clean
         (take_rows (row_order (converted P raw)) (converted P raw)) /\
  (contains (converted P raw) Fecha_Limite = true ->
     exists s, getitem (converted P raw) Fecha_Limite = Ok (ItemSeries s)).
Proof.
  intros Hwf. unfold normalise.
  destruct (if contains (strip_columns raw) Duracion then _ else _)
    as [df1|] eqn:H1; [|done].
  apply duracion_step in H1. simpl.
  destruct (if contains df1 Fecha_Limite then _ else _)
    as [df2|] eqn:H2; [|done].
  apply fecha_step in H2.
  2:{ subst df1. apply wf_map_columns.
      { intros c. unfold num_if. destruct (decide _); [|done].
        apply num_series_len. }
      unfold wf, strip_columns, len in *. simpl. by apply Forall_fmap. }
  simpl.
  destruct (for_each fillna_step df2 _) as [df3|] eqn:H3; [|done]. simpl.
  destruct (for_each strip_step df3 _) as [df4|] eqn:H4; [|done]. simpl.
  intros [= <-]. rewrite (text_loops _ _ _ H3 H4).
  destruct H2 as [-> Hu]. subst df1. split; [done|].
  intros Hc. apply Hu. unfold converted in Hc.
  rewrite contains_map_columns in Hc; [done|].
  intros c. unfold date_if. by destruct (decide _).
Qed.

(* ================================================================== *)
(** * Where the cells of the loaded table come from *)
(* ================================================================== *)

Lemma Duracion_ne_Fecha_Limite : Duracion <> Fecha_Limite.
Proof. by vm_compute. Qed.

Lemma num_series_cells P s : num_series P s = NumSeries (numeric_cells P s).
Proof. by destruct s. Qed.

Lemma date_series_cells P s :
  date_series P s = DateSeries (datetime_cells P s).
Proof. by destruct s. Qed.

Lemma loaded_column_steps P order c :
  clean (let c2 := date_if P (num_if P (Py.strip c.1, c.2)) in
         (c2.1, series_take order c2.2))
  = loaded_column P order c.
Proof.
  destruct c as [n s]. unfold loaded_column, loaded_series, clean, num_if,
    date_if. simpl.
  destruct (decide (Py.strip n = Duracion)) as [Hd|Hd]; simpl.
  - rewrite decide_False
      by (rewrite Hd; apply Duracion_ne_Fecha_Limite).
    by rewrite num_series_cells.
  - destruct (decide (Py.strip n = Fecha_Limite)); simpl.
    + by rewrite date_series_cells.
    + destruct s as [xs|xs|xs]; simpl; try done.
      f_equal. f_equal. rewrite <-list_fmap_compose.
      apply list_fmap_ext. by intros _ [t|] _.
Qed.

Lemma loaded_frame_columns P order raw :
  columns (map_columns clean (take_rows order (converted P raw)))
  = loaded_column P order <$> columns raw.
Proof.
  unfold converted, map_columns, take_rows, strip_columns. simpl.
  rewrite <-!list_fmap_compose. apply list_fmap_ext.
  intros _ c _. simpl. apply (loaded_column_steps P order c).
Qed.

Lemma series_argsort_perm s : series_argsort s ≡ₚ seq 0 (series_len s).
Proof. destruct s; apply argsort_perm. Qed.

Lemma row_order_perm P raw :
  wf raw -> row_order (converted P raw) ≡ₚ seq 0 (len raw).
Proof.
  intros Hwf%(wf_converted P). unfold row_order.
  destruct (getitem (converted P raw) Fecha_Limite) as [[s|cs]|] eqn:Hg;
    try done.
  rewrite series_argsort_perm. by rewrite (wf_getitem _ _ _ Hwf Hg).
Qed.

Lemma na_last_le_total a b :
  na_last_le Z.leb a b = true \/ na_last_le Z.leb b a = true.
Proof.
  destruct a as [x|], b as [y|]; simpl; auto.
  rewrite !Z.leb_le. lia.
Qed.

Lemma na_last_le_trans a b c :
  na_last_le Z.leb a b = true -> na_last_le Z.leb b c = true ->
  na_last_le Z.leb a c = true.
Proof.
  destruct a as [x|], b as [y|], c as [z|]; simpl; try done.
  rewrite !Z.leb_le. lia.
Qed.

Lemma na_last_le_deadline a b :
  na_last_le Z.leb a b = true -> deadline_le a b.
Proof.
  destruct a as [x|], b as [y|]; simpl; try done. by rewrite Z.leb_le.
Qed.

Lemma converted_column P raw c :
  c ∈ columns raw ->
  date_if P (num_if P (Py.strip c.1, c.2)) ∈ columns (converted P raw).
Proof.
  intros Hin. unfold converted, map_columns, strip_columns. simpl.
  rewrite <-!list_fmap_compose.
  apply list_elem_of_fmap. by exists c.
Qed.

(** The deadline column of the loaded table is in ascending order. *)
Lemma loaded_deadlines_sorted P raw c :
  (contains (converted P raw) Fecha_Limite = true ->
     exists s, getitem (converted P raw) Fecha_Limite = Ok (ItemSeries s)) ->
  c ∈ columns raw ->
  Py.strip c.1 = Fecha_Limite ->
  StronglySorted deadline_le
    (take_at (row_order (converted P raw)) (datetime_cells P c.2)).
Proof.
  intros Hu Hin Hname.
  pose proof (converted_column P raw c Hin) as Hc.
  assert (date_if P (num_if P (Py.strip c.1, c.2))
          = (Fecha_Limite, date_series P c.2)) as Heq.
  { unfold num_if, date_if. simpl. rewrite Hname.
    destruct (decide (Fecha_Limite = Duracion)) as [H|_].
    { symmetry in H. by apply Duracion_ne_Fecha_Limite in H. }
    cbn [fst snd]. by destruct (decide (Fecha_Limite = Fecha_Limite)). }
  rewrite Heq in Hc.
  destruct Hu as [s Hs].
  { apply bool_decide_eq_true. by apply (list_elem_of_fmap_2 fst) in Hc. }
  pose proof (getitem_unique _ _ _ _ Hs Hc eq_refl) as [= Hds].
  unfold row_order. rewrite Hs, <-Hds, date_series_cells. simpl.
  eapply StronglySorted_mono; [apply na_last_le_deadline|].
  apply take_at_argsort_sorted;
    [apply na_last_le_total|apply na_last_le_trans].
Qed.

Lemma take_at_lookup {A : Type} `{Inhabited A} (order : list nat)
    (l : list A) i j x :
  order !! i = Some j -> l !! j = Some x -> take_at order l !! i = Some x.
Proof.
  intros Hi Hj. unfold take_at. rewrite list_lookup_fmap, Hi. simpl.
  by rewrite (list_lookup_total_correct _ _ _ Hj).
Qed.

Lemma take_at_length {A : Type} `{Inhabited A} (order : list nat)
    (l : list A) :
  length (take_at order l) = length order.
Proof. unfold take_at. by rewrite length_fmap. Qed.

(** Everything [normalise] guarantees about the frame it returns, in terms
    of the frame it was given. *)
Lemma normalise_provenance P raw df :
  wf raw ->
  normalise P raw = Ok df ->
  exists order,
    order ≡ₚ seq 0 (len raw) /\
    index df = take_at order (index raw) /\
    columns df = loaded_column P order <$> columns raw /\
    (forall c, c ∈ columns raw -> Py.strip c.1 = Fecha_Limite ->
       StronglySorted deadline_le (take_at order (datetime_cells P c.2))).
Proof.
  intros Hwf Hn. destruct (normalise_spec P raw df Hwf Hn) as [-> Hu].
  exists (row_order (converted P raw)). split; [by apply row_order_perm|].
  split; [done|]. split; [apply loaded_frame_columns|].
  intros c Hin Hname. by apply loaded_deadlines_sorted.
Qed.

Lemma load_data_csv P env f rest raw :
  csv_files env = f :: rest ->
  read_csv env f = Ok raw ->
  load_data P env
  = match normalise P raw with
    | Ok df => ([], Ok df)
    | Raise e =>
      ([py "Error al cargar el archivo: " ++ exn_str e], Ok empty_frame)
    end.
Proof.
  intros Hcsv Hread. unfold load_data, try_csv. rewrite Hcsv, Hread.
  unfold mbind, result_bind. by destruct (normalise P raw).
Qed.

(** A raw text column that is neither the duration nor the deadline is
    loaded cell by cell. *)
Lemma loaded_text_column P order raw df name xs :
  columns df = loaded_column P order <$> columns raw ->
  (name, ObjSeries xs) ∈ columns raw ->
  Py.strip name <> Duracion ->
  Py.strip name <> Fecha_Limite ->
  (Py.strip name, ObjSeries (text_cell <$> take_at order xs)) ∈ columns df.
Proof.
  intros -> Hin Hd Hf. apply list_elem_of_fmap.
  exists (name, ObjSeries xs). split; [|done].
  unfold loaded_column, loaded_series. simpl.
  by rewrite !decide_False by done.
Qed.






(* ================================================================== *)
(** * The loaded table *)
(* ================================================================== *)


Lemma casos_raw_wf : wf casos_raw.
Proof. repeat constructor. Defined.

Example load_data_casos :
  load_data Plain.parsers casos_env
  = ([], Ok {| index := [2; 0; 1];
               columns := [
                 (Duracion, NumSeries [Some 20%Q; Some 10%Q; None]);
                 (Fecha_Limite, DateSeries [Some 5; Some 30; None]);
                 (Actuacion,
                  ObjSeries [Some []; Some (py "A");
                             Some No_especificado]) ] |}).
Proof. by vm_compute. Qed.


(* ================================================================== *)
(** * Blank cells and missing cells *)
(* ================================================================== *)

Lemma No_especificado_stripped : Py.strip No_especificado = No_especificado.
Proof. by vm_compute. Qed.

Lemma No_especificado_not_empty : [] <> No_especificado.
Proof. by vm_compute. Qed.

(** C10.  When the CSV loads, every cell of a text column other than the
    duration and the deadline is filled first and stripped afterwards: a
    cell made of whitespace only is loaded as the empty string, which is
    not "No especificado"; a missing cell is loaded as "No especificado";
    and a loaded cell is "No especificado" only if the raw cell was missing
    or its text stripped to exactly that. *)
Theorem blank_cell_is_empty_string (P : Parsers) (env : Env) (f : pystr)
    (rest : list pystr) (raw df : DataFrame) :
  csv_files env = f :: rest ->
  read_csv env f = Ok raw ->
  wf raw ->
  load_data P env = ([], Ok df) ->
  exists order,
    order ≡ₚ seq 0 (len raw) /\
    forall name xs,
      (name, ObjSeries xs) ∈ columns raw ->
      Py.strip name <> Duracion -> Py.strip name <> Fecha_Limite ->
      exists ys,
        (Py.strip name, ObjSeries ys) ∈ columns df /\
        length ys = length xs /\
        forall i j cell, order !! i = Some j -> xs !! j = Some cell ->
          exists out,
            ys !! i = Some (Some out) /\
            (forall t, cell = Some t ->
               Forall (fun c => Py.isspace c = true) t ->
               out = [] /\ out <> No_especificado) /\
            (cell = None -> out = No_especificado) /\
            (out = No_especificado ->
               cell = None \/
               exists t, cell = Some t /\ Py.strip t = No_especificado).
Proof.
  intros Hcsv Hread Hwf Hload.
  rewrite (load_data_csv P env f rest raw Hcsv Hread) in Hload.
  destruct (normalise P raw) as [df'|e] eqn:Hn; [|done].
  injection Hload as ->.
  destruct (normalise_provenance P raw df Hwf Hn)
    as (order & Hperm & Hidx & Hcols & _).
  exists order. split; [done|]. intros name xs Hin Hd Hf.
  exists (text_cell <$> take_at order xs). split.
  { by apply (loaded_text_column P order raw df name xs Hcols Hin). }
  split.
  { rewrite length_fmap, take_at_length, Hperm, length_seq.
    unfold wf in Hwf. rewrite Forall_forall in Hwf.
    symmetry. exact (Hwf _ Hin). }
  intros i j cell Hi Hj.
  exists (Py.strip (default No_especificado cell)). split.
  { rewrite list_lookup_fmap.
    by rewrite (take_at_lookup order xs i j cell Hi Hj). }
  split; [|split].
  - intros t -> Hblank. simpl. rewrite (strip_all_space t Hblank).
    split; [done|apply No_especificado_not_empty].
  - intros ->. apply No_especificado_stripped.
  - intros Hout. destruct cell as [t|]; [right|by left].
    by exists t.
Qed.

Lemma blank_cell_is_empty_string_witness :
  wf casos_raw /\
  exists order,
    order ≡ₚ seq 0 (len casos_raw) /\
    exists ys,
      (Actuacion, ObjSeries ys)
        ∈ columns {| index := [2; 0; 1];
                     columns := [
                       (Duracion, NumSeries [Some 20%Q; Some 10%Q; None]);
                       (Fecha_Limite, DateSeries [Some 5; Some 30; None]);
                       (Actuacion,
                        ObjSeries [Some []; Some (py "A");
                                   Some No_especificado]) ] |} /\
      length ys = 3%nat.
Proof.
  split; [exact casos_raw_wf|].
  destruct (blank_cell_is_empty_string Plain.parsers casos_env
              (py "data/casos.csv") [] casos_raw _ eq_refl eq_refl
              casos_raw_wf load_data_casos) as (order & Hperm & Hcells).
  exists order. split; [exact Hperm|].
  destruct (Hcells (py "Actuación")
              [Some (py " A "); None; Some (py "   ")])
    as (ys & Hin & Hlen & _).
  - right. right. left.
  - by vm_compute.
  - by vm_compute.
  - by exists ys.
Defined.


(* ================================================================== *)
(** * The aggregations on any column *)
(* ================================================================== *)

Lemma sum_list_take_drop (n : nat) (l : list nat) :
  (sum_list (take n l) + sum_list (drop n l) = sum_list l)%nat.
Proof.
  by rewrite <-sum_list_with_app, take_drop.
Qed.

Lemma count_le_length {A : Type} `{EqDecision A} (x : A) (l : list A) :
  (count x l <= length l)%nat.
Proof. unfold count. apply length_filter. Qed.

Lemma value_counts_NoDup {A : Type} `{EqDecision A} (xs : list (option A)) :
  NoDup (value_counts xs).*1.
Proof. rewrite value_counts_perm. apply tally_NoDup. Qed.

Lemma value_counts_entry_pos {A : Type} `{EqDecision A}
    (xs : list (option A)) (e : A * nat) :
  e ∈ value_counts xs ->
  (1 <= e.2 <= length xs)%nat /\ e.2 = count (Some e.1) xs /\ Some e.1 ∈ xs.
Proof.
  destruct e as [x c]. intros Hin.
  destruct (value_counts_entry xs x c Hin) as [-> Hx]. simpl.
  repeat split; try done.
  - by apply count_pos in Hx.
  - apply count_le_length.
Qed.

Lemma sum_list_pos (l : list nat) :
  l <> [] -> Forall (fun c => 1 <= c)%nat l -> (1 <= sum_list l)%nat.
Proof. intros Hne Hall. destruct Hall; [done|]. simpl. lia. Qed.

Lemma final_counts_sum (col : list (option pystr)) :
  sum_list (final_counts col).*2 = notna_count col.
Proof.
  unfold final_counts.
  destruct (Nat.ltb_spec 5 (length (value_counts col))) as [Hlt|Hle].
  - rewrite fmap_app, sum_list_with_app.
    simpl. rewrite Nat.add_0_r, fmap_take, fmap_drop.
    by rewrite sum_list_take_drop, value_counts_sum.
  - rewrite app_nil_r, take_ge by done. apply value_counts_sum.
Qed.

(** X1.  On any column, missing cells or not, the pie aggregation has at
    most six entries and its counts add up to the number of cells that
    are not missing: collapsing the tail into "Otros" neither loses nor
    adds a row. *)
Theorem final_counts_total (col : list (option pystr)) :
  sum_list (final_counts col).*2 = notna_count col /\
  (length (final_counts col) <= 6)%nat.
Proof.
  split; [apply final_counts_sum|].
  unfold final_counts. rewrite length_app, length_take.
  destruct (5 <? length (value_counts col))%nat; cbn [length]; lia.
Qed.

(** X2.  No entry of the pie aggregation is empty.  A kept entry carries
    a value of the column with the exact number of its occurrences; the
    collapsed entry, present only when there are more than five distinct
    values, counts at least one row. *)
Theorem final_counts_entries (col : list (option pystr)) (e : pystr * nat) :
  e ∈ final_counts col ->
  (1 <= e.2 <= length col)%nat /\
  ((Some e.1 ∈ col /\ e.2 = count (Some e.1) col) \/
   ((5 < distinct_values col)%nat /\
    e = (py "Otros", sum_list (drop 5 (value_counts col)).*2))).
Proof.
  unfold final_counts. rewrite elem_of_app. intros [Hin|Hin].
  - apply (subseteq_take 5) in Hin.
    apply value_counts_entry_pos in Hin as (Hb & Hc & Hx).
    split; [done|]. by left.
  - destruct (Nat.ltb_spec 5 (length (value_counts col))) as [Hlt|Hle];
      [|by apply elem_of_nil in Hin].
    apply list_elem_of_singleton in Hin as ->. simpl.
    split; [|right; by rewrite <-value_counts_length].
    split.
    + apply sum_list_pos.
      * intros Hnil. apply fmap_nil_inv in Hnil.
        apply (f_equal length) in Hnil. rewrite length_drop in Hnil.
        simpl in Hnil. lia.
      * apply Forall_fmap, Forall_forall. intros x Hx. simpl.
        apply (subseteq_drop 5) in Hx.
        by apply value_counts_entry_pos in Hx as ((? & _) & _).
    + pose proof (sum_list_take_drop 5 (value_counts col).*2) as Hs.
      rewrite value_counts_sum in Hs. rewrite fmap_drop.
      pose proof (length_filter is_Some col). unfold notna_count in Hs.
      lia.
Qed.

Lemma final_counts_entries_witness :
  (py "a", 1%nat) ∈ final_counts six_values /\
  (1 <= (py "a", 1%nat).2 <= length six_values)%nat /\
  ((Some (py "a", 1%nat).1 ∈ six_values /\
    (py "a", 1%nat).2 = count (Some (py "a", 1%nat).1) six_values) \/
   ((5 < distinct_values six_values)%nat /\
    (py "a", 1%nat)
    = (py "Otros", sum_list (drop 5 (value_counts six_values)).*2))).
Proof.
  assert ((py "a", 1%nat) ∈ final_counts six_values) as Hin.
  { refine (bool_decide_unpack _ _). by vm_compute. }
  split; [exact Hin|].
  exact (final_counts_entries six_values (py "a", 1%nat) Hin).
Defined.

(** X3.  The labels of the pie aggregation are pairwise distinct except
    in one case: the column has more than five distinct values and
    "Otros" is itself one of the five most frequent of them; the collapsed
    entry then repeats that label. *)
Theorem final_counts_labels_distinct (col : list (option pystr)) :
  NoDup (final_counts col).*1 <->
  ~ ((5 < distinct_values col)%nat /\
     py "Otros" ∈ (take 5 (value_counts col)).*1).
Proof.
  assert (NoDup (take 5 (value_counts col)).*1) as Htop.
  { rewrite fmap_take. eapply sublist_NoDup; [|apply sublist_take].
    apply value_counts_NoDup. }
  unfold final_counts. rewrite value_counts_length.
  destruct (Nat.ltb_spec 5 (distinct_values col)) as [Hlt|Hle].
  - rewrite fmap_app. simpl. split.
    + intros Hnd [_ Hin]. apply NoDup_app in Hnd as (_ & Hd & _).
      apply (Hd _ Hin). by apply list_elem_of_singleton.
    + intros Hno. apply NoDup_app. split; [done|]. split.
      * intros y Hy Hy'. apply list_elem_of_singleton in Hy' as ->.
        by apply Hno.
      * apply NoDup_singleton.
  - rewrite app_nil_r. split; [|done]. intros _ [Hlt _]. lia.
Qed.

Lemma count_filled (x : pystr) (col : list (option pystr)) :
  count (Some x) ((fun c => Some (default No_especificado c)) <$> col)
  = if decide (x = No_especificado)
    then (count None col + count (Some x) col)%nat
    else count (Some x) col.
Proof.
  induction col as [|cell col IH]; [by case_decide|].
  rewrite fmap_cons, !count_cons, IH.
  destruct cell; simpl; repeat case_decide; simplify_eq; lia.
Qed.

(** X4.  The count table of the first text column (line 225) counts every
    row: its counts add up to the length of the column, a value other than
    the sentinel is counted as often as it occurs, and the missing cells
    are counted under "No especificado" together with the cells that
    already hold that text. *)
Theorem bar_counts_total (col : list (option pystr)) :
  sum_list (bar_counts col).*2 = length col /\
  (forall x c, (x, c) ∈ bar_counts col ->
     c = if decide (x = No_especificado)
         then (count None col + count (Some x) col)%nat
         else count (Some x) col) /\
  (forall x, x ∈ (bar_counts col).*1 <->
     Some x ∈ col \/ (x = No_especificado /\ None ∈ col)).
Proof.
  unfold bar_counts. split; [|split].
  - rewrite value_counts_sum, <-omap_id_length.
    rewrite omap_id_all_some; [by rewrite length_fmap|].
    apply Forall_fmap, Forall_forall. by eexists.
  - intros x c Hin. apply value_counts_entry in Hin as [-> _].
    apply count_filled.
  - intros x. rewrite value_counts_perm, tally_keys, elem_of_omap_id.
    rewrite list_elem_of_fmap. split.
    + intros ([t|] & Heq & Hin); simpl in Heq; simplify_eq; auto.
    + intros [Hin|[-> Hin]]; eexists; (split; [|exact Hin]); done.
Qed.

(* ================================================================== *)
(** * The records of [get_kpi_metrics], one by one *)
(* ================================================================== *)

Lemma get_kpi_metrics_inv P now df kpis :
  get_kpi_metrics P now df = Ok kpis ->
  exists d v a,
    duracion_block df = Ok d /\ vencimientos_block now df = Ok v /\
    actuacion_block P df = Ok a /\
    kpis = total_kpi (len df) :: d ++ v ++ a.
Proof.
  rewrite get_kpi_metrics_blocks. intros Hk.
  destruct (duracion_block df) as [d|]; [|done].
  destruct (vencimientos_block now df) as [v|]; [|done].
  destruct (actuacion_block P df) as [a|]; [|done].
  exists d, v, a. repeat split; try done.
  unfold mbind, result_bind in Hk. by simplify_eq.
Qed.

Lemma duracion_block_inv df d :
  duracion_block df = Ok d ->
  (contains df Duracion = false /\ d = []) \/
  exists xs, getitem df Duracion = Ok (ItemSeries (NumSeries xs)) /\
    d = [duracion_kpi (nanmean xs) (nanstd xs)].
Proof.
  unfold duracion_block. destruct (contains df Duracion).
  - intros Hd. right.
    destruct (getitem df Duracion) as [[[xs|ds|ys]|cs]|e]; try done.
    exists xs. split; [done|].
    unfold mbind, result_bind, series_mean, series_std in Hd.
    by simplify_eq.
  - intros Hd. left. by simplify_eq.
Qed.

Lemma mask_filter_length {A : Type} (mask : list bool) (l : list A) :
  (length (mask_filter mask l) <= length l)%nat.
Proof.
  unfold mask_filter. rewrite length_fmap.
  etrans; [apply length_filter|]. rewrite length_zip. lia.
Qed.

Lemma vencimientos_block_inv now df v :
  vencimientos_block now df = Ok v ->
  (contains df Fecha_Limite = false /\ v = []) \/
  exists ds n, getitem df Fecha_Limite = Ok (ItemSeries (DateSeries ds)) /\
    v = [vencimientos_kpi n] /\ (n <= len df)%nat.
Proof.
  unfold vencimientos_block. destruct (contains df Fecha_Limite).
  - intros Hv. right.
    destruct (getitem df Fecha_Limite) as [[[xs|ds|ys]|cs]|e]; try done.
    exists ds. eexists. split; [done|].
    unfold mbind, result_bind, between in Hv. simplify_eq.
    split; [done|]. apply mask_filter_length.
  - intros Hv. left. by simplify_eq.
Qed.

Lemma actuacion_block_inv P df a :
  actuacion_block P df = Ok a ->
  (contains df Actuacion = false /\ a = []) \/
  exists s l c vc, getitem df Actuacion = Ok (ItemSeries s) /\
    series_value_counts (ItemSeries s) = Ok ((l, c) :: vc) /\
    a = [actuacion_kpi (str_label P l) c].
Proof.
  unfold actuacion_block. destruct (contains df Actuacion).
  - intros Ha. right.
    destruct (getitem df Actuacion) as [[s|cs]|e]; try done.
    unfold mbind, result_bind in Ha.
    destruct (series_value_counts (ItemSeries s)) as [[|[l c] vc]|e]
      eqn:Hvc; try done.
    exists s, l, c, vc. repeat split; try done.
    cbn in Ha. by simplify_eq.
  - intros Ha. left. by simplify_eq.
Qed.

Lemma map_fst_cons_inv {A B C : Type} (f : A -> B) (l : list (A * C)) e t :
  map_fst f l = e :: t ->
  exists x t', l = (x, e.2) :: t' /\ e.1 = f x.
Proof.
  destruct l as [|[x c] t']; [done|]. unfold map_fst. csimpl.
  intros Heq. simplify_eq. by exists x, t'.
Qed.

Lemma series_value_counts_head_bounds s l c vc :
  series_value_counts (ItemSeries s) = Ok ((l, c) :: vc) ->
  (1 <= c <= series_len s)%nat.
Proof.
  destruct s as [xs|ds|ys]; simpl; intros Heq; simplify_eq;
    apply map_fst_cons_inv in Heq as (x & t' & Heq & _); simpl in Heq;
    (assert ((x, c) ∈ (x, c) :: t') as Hin by apply list_elem_of_here);
    rewrite <-Heq in Hin;
    apply value_counts_entry_pos in Hin as (Hb & _); simpl in Hb;
    rewrite ?length_fmap in Hb; done.
Qed.

(** X5.  Whatever the clock and the deadlines, the upcoming-deadline
    record never shows more cases than the total record: its value is a
    count between zero and the number of rows. *)
Theorem upcoming_at_most_total (P : Parsers) (now : Z) (df : DataFrame)
    (kpis : list KPI) (k : KPI) :
  get_kpi_metrics P now df = Ok kpis ->
  k ∈ kpis ->
  title k = py "Próximos Vencimientos" ->
  exists n, value k = VInt (Z.of_nat n) /\ (n <= len df)%nat /\
            head kpis = Some (total_kpi (len df)).
Proof.
  intros Hk Hin Ht.
  apply get_kpi_metrics_inv in Hk as (d & v & a & Hd & Hv & Ha & ->).
  apply duracion_block_inv in Hd as [[_ ->]|(xs & _ & ->)];
    apply vencimientos_block_inv in Hv as [[_ ->]|(ds & n & _ & -> & Hn)];
    apply actuacion_block_inv in Ha as [[_ ->]|(s & l & c & vc & _ & _ & ->)];
    simpl in Hin;
    repeat (apply elem_of_cons in Hin as [->|Hin];
            [first [vm_compute in Ht; discriminate | by exists n]|]);
    by apply elem_of_nil in Hin.
Qed.

Lemma five_cases_kpis :
  get_kpi_metrics Plain.parsers 1000 five_cases
  = Ok [total_kpi 5; duracion_kpi (frat 15) (fsqrt 50); vencimientos_kpi 2;
        actuacion_kpi (py "A") 3].
Proof. by vm_compute. Defined.

Lemma upcoming_at_most_total_witness :
  exists n,
    value (vencimientos_kpi 2) = VInt (Z.of_nat n) /\
    (n <= len five_cases)%nat /\
    head [total_kpi 5; duracion_kpi (frat 15) (fsqrt 50); vencimientos_kpi 2;
          actuacion_kpi (py "A") 3]
    = Some (total_kpi (len five_cases)).
Proof.
  apply (upcoming_at_most_total Plain.parsers 1000 five_cases _
           (vencimientos_kpi 2) five_cases_kpis).
  - apply list_elem_of_further, list_elem_of_further, list_elem_of_here.
  - reflexivity.
Defined.

Lemma truncate20_length name : (length (truncate20 name) <= 23)%nat.
Proof.
  unfold truncate20. destruct (Nat.ltb_spec 20 (length name)); [|lia].
  rewrite length_app, length_take.
  change (length (py "...")) with 3%nat. lia.
Qed.

(** X6.  The most-frequent-action record is bounded: the text shown is at
    most 23 characters long (20 of the name and the ellipsis), and the
    count in the delta lies between 1 and the number of rows. *)
Theorem mode_record_bounds (P : Parsers) (now : Z) (df : DataFrame)
    (kpis : list KPI) (k : KPI) :
  wf df ->
  get_kpi_metrics P now df = Ok kpis ->
  k ∈ kpis ->
  title k = py "Actuación más Común" ->
  exists shown c,
    value k = VStr shown /\
    (length shown <= 23)%nat /\
    delta k = Py.str_nat (N.of_nat c) ++ py " casos" /\
    (1 <= c <= len df)%nat.
Proof.
  intros Hwf Hk Hin Ht.
  apply get_kpi_metrics_inv in Hk as (d & v & a & Hd & Hv & Ha & ->).
  apply duracion_block_inv in Hd as [[_ ->]|(xs & _ & ->)];
    apply vencimientos_block_inv in Hv as [[_ ->]|(ds & n & _ & -> & Hn)];
    apply actuacion_block_inv in Ha
      as [[_ ->]|(s & l & c & vc & Hg & Hvc & ->)];
    simpl in Hin;
    repeat (apply elem_of_cons in Hin as [->|Hin];
            [try (vm_compute in Ht; discriminate)|]);
    try (by apply elem_of_nil in Hin);
    (exists (truncate20 (str_label P l)), c;
     split; [done|]; split; [apply truncate20_length|]; split; [done|]);
    apply series_value_counts_head_bounds in Hvc;
    by rewrite <-(wf_getitem df Actuacion s Hwf Hg).
Qed.

Lemma mode_record_bounds_witness :
  exists shown c,
    value (actuacion_kpi (py "A") 3) = VStr shown /\
    (length shown <= 23)%nat /\
    delta (actuacion_kpi (py "A") 3) = Py.str_nat (N.of_nat c) ++ py " casos" /\
    (1 <= c <= len five_cases)%nat.
Proof.
  apply (mode_record_bounds Plain.parsers 1000 five_cases _
           (actuacion_kpi (py "A") 3) five_cases_wf five_cases_kpis).
  - apply list_elem_of_further, list_elem_of_further, list_elem_of_further,
      list_elem_of_here.
  - reflexivity.
Defined.

Lemma vencimientos_block_clock now1 now2 df :
  match vencimientos_block now1 df, vencimientos_block now2 df with
  | Ok v1, Ok v2 =>
    (v1 = [] /\ v2 = []) \/
    exists n1 n2, v1 = [vencimientos_kpi n1] /\ v2 = [vencimientos_kpi n2]
  | Raise e1, Raise e2 => e1 = e2
  | _, _ => False
  end.
Proof.
  unfold vencimientos_block. destruct (contains df Fecha_Limite); [|by left].
  destruct (getitem df Fecha_Limite) as [[[xs|ds|ys]|cs]|e]; simpl; try done.
  right. by do 2 eexists.
Qed.

(** X7.  The clock only moves the upcoming-deadline record.  Two calls on
    the same table at different times fail alike or both return; the
    returned sequences have the same length and differ at most in the
    value of the record titled "Próximos Vencimientos"; on a table
    without a [Fecha Límite] column they are equal. *)
Theorem clock_moves_only_deadline_record (P : Parsers) (now1 now2 : Z)
    (df : DataFrame) :
  (contains df Fecha_Limite = false ->
     get_kpi_metrics P now1 df = get_kpi_metrics P now2 df) /\
  (forall e, get_kpi_metrics P now1 df = Raise e ->
     get_kpi_metrics P now2 df = Raise e) /\
  (forall kpis1, get_kpi_metrics P now1 df = Ok kpis1 ->
     exists kpis2,
       get_kpi_metrics P now2 df = Ok kpis2 /\
       Forall2 (fun a b =>
                  a = b \/
                  (title a = py "Próximos Vencimientos" /\
                   title b = title a /\ delta b = delta a /\
                   help b = help a))
               kpis1 kpis2).
Proof.
  rewrite !get_kpi_metrics_blocks. split; [|split].
  - intros Hno. by rewrite !(vencimientos_block_absent _ df Hno).
  - intros e. pose proof (vencimientos_block_clock now1 now2 df) as Hv.
    destruct (duracion_block df) as [d|]; [|done].
    destruct (vencimientos_block now1 df) as [v1|e1],
      (vencimientos_block now2 df) as [v2|e2]; try done; [|by subst].
    destruct (actuacion_block P df) as [a|]; done.
  - intros kpis1. pose proof (vencimientos_block_clock now1 now2 df) as Hv.
    destruct (duracion_block df) as [d|]; [|done].
    destruct (vencimientos_block now1 df) as [v1|e1],
      (vencimientos_block now2 df) as [v2|e2]; try done.
    destruct (actuacion_block P df) as [a|]; [|done].
    unfold mbind, result_bind. intros [= <-]. eexists. split; [done|].
    assert (forall l : list KPI,
              Forall2 (fun a b =>
                  a = b \/
                  (title a = py "Próximos Vencimientos" /\
                   title b = title a /\ delta b = delta a /\
                   help b = help a)) l l) as Hrefl.
    { intros l. apply Forall_Forall2_diag, Forall_forall. by left. }
    constructor; [by left|].
    apply Forall2_app; [apply Hrefl|].
    apply Forall2_app; [|apply Hrefl].
    destruct Hv as [[-> ->]|(n1 & n2 & -> & ->)]; [constructor|].
    constructor; [|constructor]. right. simpl.
    split; [reflexivity|]. split; [reflexivity|]. split; reflexivity.
Qed.

(* ================================================================== *)
(** * What the duration record can show *)
(* ================================================================== *)












(* ================================================================== *)
(** * The frame a CSV file loads to *)
(* ================================================================== *)

Lemma getitem_fmap_columns g df df' y s :
  (forall c, (g c).1 = c.1) ->
  columns df' = g <$> columns df ->
  getitem df y = Ok (ItemSeries s) ->
  getitem df' y = Ok (ItemSeries (g (y, s)).2).
Proof.
  intros Hg Hcols Hget.
  rewrite <-(getitem_map_columns g df y s Hg Hget).
  unfold getitem, map_columns. simpl. by rewrite Hcols.
Qed.

Lemma contains_fmap_columns g df df' y :
  (forall c, (g c).1 = c.1) ->
  columns df' = g <$> columns df ->
  contains df' y = contains df y.
Proof.
  intros Hg Hcols. rewrite <-(contains_map_columns g df y Hg).
  unfold contains, map_columns. simpl. by rewrite Hcols.
Qed.

Lemma getitem_take_rows order df y s :
  getitem df y = Ok (ItemSeries s) ->
  getitem (take_rows order df) y = Ok (ItemSeries (series_take order s)).
Proof.
  intros Hget.
  by apply (getitem_fmap_columns (fun c => (c.1, series_take order c.2))
              df (take_rows order df) y s).
Qed.

Lemma contains_take_rows order df y :
  contains (take_rows order df) y = contains df y.
Proof.
  by apply (contains_fmap_columns (fun c => (c.1, series_take order c.2))).
Qed.

Lemma text_loops_unique df1 df2 df3 n :
  for_each fillna_step df1 (select_dtypes_object df1) = Ok df2 ->
  for_each strip_step df2 (select_dtypes_object df2) = Ok df3 ->
  n ∈ select_dtypes_object df3 ->
  exists ys, getitem df3 n = Ok (ItemSeries (ObjSeries ys)) /\
             Forall is_Some ys.
Proof.
  intros Hfill Hstrip Hn.
  pose proof (text_loops _ _ _ Hfill Hstrip) as Hdf3.
  set (g0 := fun c : pystr * Series =>
               (c.1, strip_series (fill_series c.2))) in Hdf3.
  assert (shape_preserving g0) as Hg0.
  { intros c. split; [done|]. simpl.
    by rewrite strip_series_shape, fill_series_shape. }
  rewrite Hdf3, (select_dtypes_object_map_columns g0 df1 Hg0) in Hn.
  destruct (fill_loop_shape (select_dtypes_object df1) df1)
    as (g & Hg & Hfill'); [apply select_dtypes_object_contains|].
  assert (df2 = map_columns g df1) as Hdf2 by congruence.
  rewrite Hdf2, (select_dtypes_object_map_columns g df1 Hg) in Hstrip.
  destruct (strip_loop_pre _ _ _ Hstrip n Hn) as [xs' Hn'].
  apply getitem_map_columns_inv in Hn' as (s & Hs & Heq);
    [|intros; apply Hg].
  destruct (Hg (n, s)) as [_ Ho]. rewrite <-Heq in Ho. simpl in Ho.
  symmetry in Ho. apply is_object_text in Ho as [xs ->].
  rewrite Hdf3.
  rewrite (getitem_map_columns g0 df1 n _ (fun c => proj1 (Hg0 c)) Hs).
  simpl. eexists. split; [done|].
  apply Forall_fmap, Forall_fmap, Forall_forall. intros c _. by eexists.
Qed.

Lemma duracion_step_unique P df df1 :
  (if contains df Duracion then
     col ← getitem df Duracion;
     s ← to_numeric P col;
     Ok (setitem df Duracion s)
   else Ok df) = Ok df1 ->
  contains df Duracion = true ->
  exists s, getitem df Duracion = Ok (ItemSeries s).
Proof.
  intros Hstep Hc. rewrite Hc in Hstep.
  destruct (getitem df Duracion) as [[s|cs]|e]; [by eexists|done|done].
Qed.

Lemma strip_columns_wf raw : wf raw -> wf (strip_columns raw).
Proof.
  unfold wf, strip_columns, len. simpl. intros Hwf. by apply Forall_fmap.
Qed.

(** In the frame [normalise] returns, [Duración] names one column of
    numbers, [Fecha Límite] one column of instants, and every label of a
    text column names that column alone, which has no missing cell. *)
Lemma normalise_unique P raw df :
  wf raw ->
  normalise P raw = Ok df ->
  (contains df Duracion = true ->
     exists xs, getitem df Duracion = Ok (ItemSeries (NumSeries xs))) /\
  (contains df Fecha_Limite = true ->
     exists ds, getitem df Fecha_Limite = Ok (ItemSeries (DateSeries ds))) /\
  (forall n, n ∈ select_dtypes_object df ->
     exists ys, getitem df n = Ok (ItemSeries (ObjSeries ys)) /\
                Forall is_Some ys).
Proof.
  intros Hwf. unfold normalise.
  destruct (if contains (strip_columns raw) Duracion then _ else _)
    as [df1|] eqn:H1; [|done].
  pose proof (duracion_step_unique _ _ _ H1) as Hud.
  apply duracion_step in H1. simpl.
  destruct (if contains df1 Fecha_Limite then _ else _)
    as [df2|] eqn:H2; [|done].
  apply fecha_step in H2.
  2:{ subst df1. apply wf_map_columns; [|by apply strip_columns_wf].
      intros c. unfold num_if. destruct (decide _); [|done].
      apply num_series_len. }
  simpl.
  destruct (for_each fillna_step df2 _) as [df3|] eqn:H3; [|done]. simpl.
  destruct (for_each strip_step df3 _) as [df4|] eqn:H4; [|done]. simpl.
  intros [= <-].
  pose proof (text_loops _ _ _ H3 H4) as Hdf4.
  destruct H2 as [Hdf2 Huf].
  set (g0 := fun c : pystr * Series =>
               (c.1, strip_series (fill_series c.2))) in Hdf4.
  assert (forall c, (g0 c).1 = c.1) as Hg0 by done.
  assert (forall c, (num_if P c).1 = c.1) as Hgn.
  { intros c. unfold num_if. by destruct (decide _). }
  assert (forall c, (date_if P c).1 = c.1) as Hgd.
  { intros c. unfold date_if. by destruct (decide _). }
  split; [|split].
  - intros Hc.
    rewrite Hdf4, contains_map_columns, Hdf2, contains_take_rows,
      contains_map_columns, H1, contains_map_columns in Hc by done.
    destruct (Hud Hc) as [s0 Hs0].
    pose proof (getitem_map_columns (num_if P) _ _ _ Hgn Hs0) as Hs1.
    rewrite <-H1 in Hs1.
    pose proof (getitem_map_columns (date_if P) _ _ _ Hgd Hs1) as Hs2.
    apply (getitem_take_rows (row_order (map_columns (date_if P) df1)))
      in Hs2.
    rewrite <-Hdf2 in Hs2.
    pose proof (getitem_map_columns g0 _ _ _ Hg0 Hs2) as Hs3.
    rewrite <-Hdf4 in Hs3. rewrite Hs3.
    unfold num_if, date_if. simpl.
    destruct (decide (Duracion = Duracion)); [|done]. simpl.
    destruct (decide (Duracion = Fecha_Limite)) as [Heq|_];
      [by apply Duracion_ne_Fecha_Limite in Heq|].
    rewrite num_series_cells. simpl. by eexists.
  - intros Hc.
    rewrite Hdf4, contains_map_columns, Hdf2, contains_take_rows,
      contains_map_columns in Hc by done.
    destruct (Huf Hc) as [s2 Hs2].
    apply getitem_map_columns_inv in Hs2 as Hinv; [|done].
    destruct Hinv as (s1 & _ & Heq).
    apply (getitem_take_rows (row_order (map_columns (date_if P) df1)))
      in Hs2.
    rewrite <-Hdf2 in Hs2.
    pose proof (getitem_map_columns g0 _ _ _ Hg0 Hs2) as Hs3.
    rewrite <-Hdf4 in Hs3. rewrite Hs3, Heq.
    unfold date_if. simpl.
    destruct (decide (Fecha_Limite = Fecha_Limite)); [|done]. simpl.
    rewrite date_series_cells. simpl. by eexists.
  - intros n Hn. by apply (text_loops_unique df2 df3 df4 n).
Qed.

Lemma take_at_perm {A : Type} `{Inhabited A} (order : list nat)
    (l : list A) :
  order ≡ₚ seq 0 (length l) -> take_at order l ≡ₚ l.
Proof.
  intros Hperm. rewrite <-(take_at_seq l) at 2. unfold take_at.
  by apply fmap_Permutation.
Qed.

Lemma loaded_series_len P order name s :
  series_len (loaded_series P order name s) = length order.
Proof.
  unfold loaded_series.
  destruct (decide (name = Duracion)); [apply take_at_length|].
  destruct (decide (name = Fecha_Limite)); [apply take_at_length|].
  destruct s; simpl; rewrite ?length_fmap; apply take_at_length.
Qed.

(** The loaded frame has the rows of the file, each once, and is well
    formed. *)
Lemma normalise_wf P raw df :
  wf raw ->
  normalise P raw = Ok df ->
  wf df /\ len df = len raw /\ index df ≡ₚ index raw.
Proof.
  intros Hwf Hn.
  destruct (normalise_provenance P raw df Hwf Hn)
    as (order & Hperm & Hidx & Hcols & _).
  assert (length order = len raw) as Hlen.
  { by rewrite Hperm, length_seq. }
  assert (len df = len raw) as Hlen'.
  { unfold len at 1. by rewrite Hidx, take_at_length. }
  split; [|split; [done|]].
  - unfold wf. rewrite Hcols, Hlen'. apply Forall_fmap, Forall_forall.
    intros c _. simpl. by rewrite loaded_series_len.
  - rewrite Hidx. by apply take_at_perm.
Qed.

Lemma load_data_csv_ok P env f rest raw df :
  csv_files env = f :: rest ->
  read_csv env f = Ok raw ->
  load_data P env = ([], Ok df) ->
  normalise P raw = Ok df.
Proof.
  intros Hcsv Hread. rewrite (load_data_csv P env f rest raw Hcsv Hread).
  destruct (normalise P raw); [by intros [= ->]|done].
Qed.

(** X10.  When the directory holds a CSV file, [load_data] always returns
    a frame: whatever the reading or the normalisation raises is reported
    in one message and answered with the empty frame, and neither the JSON
    files nor the sample are looked at. *)
Theorem csv_shadows_fallbacks (P : Parsers) (env : Env) (f : pystr)
    (rest : list pystr) :
  csv_files env = f :: rest ->
  (exists log df,
     load_data P env = (log, Ok df) /\
     (log = [] \/
      exists e, log = [py "Error al cargar el archivo: " ++ exn_str e] /\
                df = empty_frame)) /\
  (forall jsons reader frame,
     load_data P {| csv_files := csv_files env; read_csv := read_csv env;
                    json_files := jsons; read_json := reader;
                    sample := frame |}
     = load_data P env).
Proof.
  intros Hcsv. split.
  - unfold load_data, try_csv. rewrite Hcsv.
    destruct (read_csv env f) as [raw|e]; simpl.
    + destruct (normalise P raw) as [df|e]; simpl.
      * exists [], df. split; [done|by left].
      * do 2 eexists. split; [done|]. right. by exists e.
    + do 2 eexists. split; [done|]. right. by exists e.
  - intros jsons reader frame. unfold load_data, try_csv. simpl.
    rewrite Hcsv.
    destruct (read_csv env f) as [raw|e]; simpl; [|done].
    by destruct (normalise P raw).
Qed.

Lemma csv_shadows_fallbacks_witness :
  (exists log df,
     load_data Plain.parsers casos_env = (log, Ok df) /\
     (log = [] \/
      exists e, log = [py "Error al cargar el archivo: " ++ exn_str e] /\
                df = empty_frame)) /\
  (forall jsons reader frame,
     load_data Plain.parsers
       {| csv_files := csv_files casos_env; read_csv := read_csv casos_env;
          json_files := jsons; read_json := reader; sample := frame |}
     = load_data Plain.parsers casos_env).
Proof.
  apply (csv_shadows_fallbacks Plain.parsers casos_env
           (py "data/casos.csv") []).
  reflexivity.
Defined.

(** X11.  A frame loaded from CSV keeps the rows of the file: it is well
    formed, has as many rows and columns, its index is a rearrangement of
    the file's, and a column that holds no text and is named neither
    [Duración] nor [Fecha Límite] comes through with its cells as they
    were, in the new row order. *)
Theorem loaded_frame_shape (P : Parsers) (env : Env) (f : pystr)
    (rest : list pystr) (raw df : DataFrame) :
  csv_files env = f :: rest ->
  read_csv env f = Ok raw ->
  wf raw ->
  load_data P env = ([], Ok df) ->
  wf df /\ len df = len raw /\ index df ≡ₚ index raw /\
  length (columns df) = length (columns raw) /\
  exists order,
    order ≡ₚ seq 0 (len raw) /\
    index df = take_at order (index raw) /\
    forall name s,
      (name, s) ∈ columns raw -> is_object s = false ->
      Py.strip name <> Duracion -> Py.strip name <> Fecha_Limite ->
      (Py.strip name, series_take order s) ∈ columns df.
Proof.
  intros Hcsv Hread Hwf Hload.
  pose proof (load_data_csv_ok P env f rest raw df Hcsv Hread Hload) as Hn.
  destruct (normalise_wf P raw df Hwf Hn) as (Hwf' & Hlen & Hperm).
  destruct (normalise_provenance P raw df Hwf Hn)
    as (order & Hord & Hidx & Hcols & _).
  repeat split; try done.
  - by rewrite Hcols, length_fmap.
  - exists order. repeat split; try done.
    intros name s Hin Ho Hd Hf. rewrite Hcols.
    apply list_elem_of_fmap. exists (name, s). split; [|done].
    unfold loaded_column, loaded_series. simpl.
    rewrite !decide_False by done. by destruct s.
Qed.

Lemma loaded_frame_shape_witness :
  wf casos_loaded /\ len casos_loaded = len casos_raw /\
  index casos_loaded ≡ₚ index casos_raw /\
  length (columns casos_loaded) = length (columns casos_raw) /\
  exists order,
    order ≡ₚ seq 0 (len casos_raw) /\
    index casos_loaded = take_at order (index casos_raw) /\
    forall name s,
      (name, s) ∈ columns casos_raw -> is_object s = false ->
      Py.strip name <> Duracion -> Py.strip name <> Fecha_Limite ->
      (Py.strip name, series_take order s) ∈ columns casos_loaded.
Proof.
  apply (loaded_frame_shape Plain.parsers casos_env (py "data/casos.csv") []
           casos_raw casos_loaded).
  - reflexivity.
  - reflexivity.
  - exact casos_raw_wf.
  - exact load_data_casos.
Defined.

Lemma filter_singleton_lookup {A : Type} (Q : A -> Prop)
    `{forall x, Decision (Q x)} (l : list A) (x : A) i j a b :
  filter Q l = [x] -> l !! i = Some a -> l !! j = Some b -> Q a -> Q b ->
  i = j.
Proof.
  revert i j. induction l as [|c l IH]; intros i j Hf Hi Hj Ha Hb; [done|].
  rewrite filter_cons in Hf. destruct (decide (Q c)) as [Hc|Hc].
  - assert (filter Q l = []) as Hnil by congruence.
    assert (forall k y, l !! k = Some y -> ~ Q y) as Hno.
    { intros k y Hk Hy.
      assert (y ∈ filter Q l) as Hin.
      { apply list_elem_of_filter. split; [done|].
        by eapply list_elem_of_lookup_2. }
      rewrite Hnil in Hin. by apply elem_of_nil in Hin. }
    destruct i as [|i], j as [|j]; simpl in *; try done.
    + by destruct (Hno j b Hj).
    + by destruct (Hno i a Hi).
    + by destruct (Hno i a Hi).
  - destruct i as [|i]; simpl in Hi; [by simplify_eq|].
    destruct j as [|j]; simpl in Hj; [by simplify_eq|].
    f_equal. by apply IH.
Qed.

Lemma contains_elem_of df c : c ∈ columns df -> contains df c.1 = true.
Proof.
  intros Hin. unfold contains. apply bool_decide_eq_true.
  by apply list_elem_of_fmap_2.
Qed.

(** X12.  A header that names two columns alike once the blanks around
    the labels are gone makes the load fail when the label is [Duración]
    or [Fecha Límite] or when the column holds text: the failure is
    reported in one message and the empty frame is returned. *)
Theorem duplicate_label_fails (P : Parsers) (env : Env) (f : pystr)
    (rest : list pystr) (raw : DataFrame) (i j : nat)
    (ci cj : pystr * Series) :
  csv_files env = f :: rest ->
  read_csv env f = Ok raw ->
  wf raw ->
  i <> j ->
  columns raw !! i = Some ci ->
  columns raw !! j = Some cj ->
  Py.strip ci.1 = Py.strip cj.1 ->
  (is_object ci.2 = true \/ Py.strip ci.1 = Duracion \/
   Py.strip ci.1 = Fecha_Limite) ->
  exists e,
    load_data P env
    = ([py "Error al cargar el archivo: " ++ exn_str e], Ok empty_frame).
Proof.
  intros Hcsv Hread Hwf Hij Hi Hj Hlab Hkind.
  rewrite (load_data_csv P env f rest raw Hcsv Hread).
  destruct (normalise P raw) as [df|e] eqn:Hn; [exfalso|by exists e].
  destruct (normalise_unique P raw df Hwf Hn) as (Hd & Hf & Ht).
  destruct (normalise_provenance P raw df Hwf Hn)
    as (order & _ & _ & Hcols & _).
  assert (columns df !! i = Some (loaded_column P order ci)) as Hi'.
  { by rewrite Hcols, list_lookup_fmap, Hi. }
  assert (columns df !! j = Some (loaded_column P order cj)) as Hj'.
  { by rewrite Hcols, list_lookup_fmap, Hj. }
  assert (loaded_column P order ci ∈ columns df) as Hin
    by (by eapply list_elem_of_lookup_2).
  assert (exists s, getitem df (Py.strip ci.1) = Ok (ItemSeries s))
    as [s Hs].
  { apply contains_elem_of in Hin as Hc. simpl in Hc.
    destruct (decide (Py.strip ci.1 = Duracion)) as [Hdn|Hdn].
    { rewrite Hdn in *. destruct (Hd Hc) as [xs Hxs]. by eexists. }
    destruct (decide (Py.strip ci.1 = Fecha_Limite)) as [Hfn|Hfn].
    { rewrite Hfn in *. destruct (Hf Hc) as [ds Hds]. by eexists. }
    destruct Hkind as [Ho|[?|?]]; try done.
    destruct (Ht (Py.strip ci.1)) as (ys & Hys & _); [|by eexists].
    apply (select_dtypes_object_elem df _ Hin). simpl.
    unfold loaded_series. rewrite !decide_False by done.
    by destruct (ci.2). }
  apply getitem_series in Hs. apply Hij.
  by apply (filter_singleton_lookup (fun c => c.1 = Py.strip ci.1)
              (columns df) _ i j _ _ Hs Hi' Hj').
Qed.

Lemma duplicate_label_fails_witness :
  exists e,
    load_data Plain.parsers twice_env
    = ([py "Error al cargar el archivo: " ++ exn_str e], Ok empty_frame).
Proof.
  apply (duplicate_label_fails Plain.parsers twice_env (py "data/casos.csv")
           [] twice_raw 0 1
           (py "Juzgado", ObjSeries [Some (py "1")])
           (py "Juzgado ", ObjSeries [Some (py "2")])).
  - reflexivity.
  - reflexivity.
  - repeat constructor.
  - lia.
  - reflexivity.
  - reflexivity.
  - by vm_compute.
  - left. reflexivity.
Defined.

Lemma all_some_count {A : Type} (ys : list (option A)) :
  Forall is_Some ys -> notna_count ys = length ys.
Proof. intros Hall. rewrite <-omap_id_length. by apply omap_id_all_some. Qed.




Lemma loaded_blocks_before_actuacion P raw df now :
  wf raw ->
  normalise P raw = Ok df ->
  exists d v, duracion_block df = Ok d /\ vencimientos_block now df = Ok v.
Proof.
  intros Hwf Hn.
  destruct (normalise_unique P raw df Hwf Hn) as (Hd & Hf & _).
  destruct (normalise_wf P raw df Hwf Hn) as (Hwf' & _ & _).
  assert (exists d, duracion_block df = Ok d) as [d Hdb].
  { destruct (contains df Duracion) eqn:Hc.
    - destruct (Hd eq_refl) as [xs Hxs]. eexists.
      by apply duracion_block_numbers.
    - exists []. unfold duracion_block. by rewrite Hc. }
  assert (exists v, vencimientos_block now df = Ok v) as [v Hvb].
  { destruct (contains df Fecha_Limite) eqn:Hc.
    - destruct (Hf eq_refl) as [ds Hds]. eexists.
      by apply vencimientos_block_dates.
    - exists []. by apply vencimientos_block_absent. }
  by exists d, v.
Qed.

Lemma loaded_empty_actuacion P raw df :
  wf raw ->
  normalise P raw = Ok df ->
  len raw = 0%nat ->
  Actuacion ∈ select_dtypes_object df ->
  actuacion_block P df
  = Raise (Exn IndexError (py "single positional indexer is out-of-bounds")).
Proof.
  intros Hwf Hn Hrows Hact.
  destruct (normalise_unique P raw df Hwf Hn) as (_ & _ & Ht).
  destruct (normalise_wf P raw df Hwf Hn) as (Hwf' & Hlen & _).
  destruct (Ht _ Hact) as (ys & Hys & _).
  pose proof (wf_getitem df Actuacion _ Hwf' Hys) as Hl. simpl in Hl.
  assert (ys = []) as -> by (apply nil_length_inv; lia).
  unfold actuacion_block.
  rewrite (select_dtypes_object_contains df _ Hact), Hys.
  reflexivity.
Qed.

(** X14.  A CSV file with a header and no row, among whose columns is
    [Actuación], loads without a message, and [get_kpi_metrics] then
    fails on the loaded frame with the [IndexError] of [.iloc[0]]: the
    duration and deadline blocks go through, the frequency table of the
    actions is empty. *)
Theorem header_only_csv_kpis_fail (P : Parsers) (env : Env) (f : pystr)
    (rest : list pystr) (raw df : DataFrame) (now : Z) :
  csv_files env = f :: rest ->
  read_csv env f = Ok raw ->
  wf raw ->
  load_data P env = ([], Ok df) ->
  len raw = 0%nat ->
  Actuacion ∈ select_dtypes_object df ->
  get_kpi_metrics P now df
  = Raise (Exn IndexError (py "single positional indexer is out-of-bounds")).
Proof.
  intros Hcsv Hread Hwf Hload Hrows Hact.
  pose proof (load_data_csv_ok P env f rest raw df Hcsv Hread Hload) as Hn.
  destruct (loaded_blocks_before_actuacion P raw df now Hwf Hn)
    as (d & v & Hd & Hv).
  rewrite get_kpi_metrics_blocks, Hd, Hv.
  by rewrite (loaded_empty_actuacion P raw df Hwf Hn Hrows Hact).
Qed.

Lemma header_only_loads :
  load_data Plain.parsers header_only_env
  = ([], Ok {| index := [];
               columns := [(Fecha_Limite, DateSeries []);
                           (Actuacion, ObjSeries [])] |}).
Proof. by vm_compute. Qed.

Lemma header_only_csv_kpis_fail_witness :
  get_kpi_metrics Plain.parsers 0
    {| index := [];
       columns := [(Fecha_Limite, DateSeries []); (Actuacion, ObjSeries [])] |}
  = Raise (Exn IndexError (py "single positional indexer is out-of-bounds")).
Proof.
  apply (header_only_csv_kpis_fail Plain.parsers header_only_env
           (py "data/casos.csv") [] header_only_raw).
  - reflexivity.
  - reflexivity.
  - repeat constructor.
  - exact header_only_loads.
  - reflexivity.
  - refine (bool_decide_unpack _ _). by vm_compute.
Defined.





(* ================================================================== *)
(** * The page *)
(* ================================================================== *)

Lemma out_eta {A : Type} (m : out A) : Out (shown m) (outcome m) = m.
Proof. by destruct m. Qed.

Lemma out_bind_Ok {A B : Type} l (a : A) (f : A -> out B) :
  Out l (Ok a) ≫= f = Out (l ++ shown (f a)) (outcome (f a)).
Proof. reflexivity. Qed.

Lemma out_bind_Raise {A B : Type} l e (f : A -> out B) :
  Out l (Raise e) ≫= f = Out l (Raise e).
Proof. reflexivity. Qed.

Lemma call_bind {A B : Type} (a : A) (f : A -> out B) :
  call (Ok a) ≫= f = f a.
Proof. unfold call. rewrite out_bind_Ok. apply out_eta. Qed.

Lemma call_raise_bind {A B : Type} e (f : A -> out B) :
  call (Raise e) ≫= f = Out [] (Raise e).
Proof. reflexivity. Qed.

Lemma ret_bind {A B : Type} (a : A) (f : A -> out B) : mret a ≫= f = f a.
Proof. apply (call_bind a f). Qed.

Lemma show_bind {B : Type} pl s (f : unit -> out B) :
  show pl s ≫= f = Out ((pl, s) :: shown (f tt)) (outcome (f tt)).
Proof. reflexivity. Qed.

Lemma kpi_cards_shown (idx : nat) (kpis : list KPI) :
  kpi_cards idx kpis
  = Out (imap (fun i k => (Column ((idx + i) mod 4) 4, Metric k)) kpis)
        (Ok tt).
Proof.
  revert idx. induction kpis as [|k kpis IH]; intros idx; [done|].
  cbn [kpi_cards]. rewrite show_bind, IH. cbn [shown outcome imap].
  rewrite Nat.add_0_r. do 2 f_equal. apply imap_ext. intros i x _. simpl.
  by rewrite Nat.add_succ_r.
Qed.

Lemma kpis_at_most_four P now df kpis :
  get_kpi_metrics P now df = Ok kpis -> (1 <= length kpis <= 4)%nat.
Proof.
  intros Hk.
  apply get_kpi_metrics_inv in Hk as (d & v & a & Hd & Hv & Ha & ->).
  apply duracion_block_inv in Hd as [[_ ->]|(xs & _ & ->)];
    apply vencimientos_block_inv in Hv as [[_ ->]|(ds & n & _ & -> & Hn)];
    apply actuacion_block_inv in Ha
      as [[_ ->]|(s & l & c & vc & _ & _ & ->)];
    cbn [length app]; lia.
Qed.

Lemma kpi_section_ok P now df kpis :
  get_kpi_metrics P now df = Ok kpis ->
  kpi_section P now df
  = Out ((Body, Subheader (py "📊 Métricas Clave"))
           :: imap (fun i k => (Column i 4, Metric k)) kpis)
        (Ok tt).
Proof.
  intros Hk. unfold kpi_section. rewrite show_bind, Hk, call_bind.
  rewrite kpi_cards_shown. cbn [shown outcome]. do 2 f_equal.
  apply imap_ext. intros i k Hi.
  apply lookup_lt_Some in Hi. apply kpis_at_most_four in Hk.
  by rewrite Nat.add_0_l, Nat.mod_small by lia.
Qed.

Lemma kpi_section_raise P now df e :
  get_kpi_metrics P now df = Raise e ->
  kpi_section P now df
  = Out [(Body, Subheader (py "📊 Métricas Clave"))] (Raise e).
Proof. intros Hk. unfold kpi_section. by rewrite show_bind, Hk. Qed.

(** X16.  The cards of the page are the records of [get_kpi_metrics] in
    their order, one per column of the row of four: there are never more
    than four records, so no card wraps around to a column already
    used. *)
Theorem kpi_cards_one_per_column (P : Parsers) (now : Z) (df : DataFrame)
    (kpis : list KPI) :
  get_kpi_metrics P now df = Ok kpis ->
  kpi_section P now df
  = Out ((Body, Subheader (py "📊 Métricas Clave"))
           :: imap (fun i k => (Column i 4, Metric k)) kpis)
        (Ok tt) /\
  (1 <= length kpis <= 4)%nat.
Proof.
  intros Hk. split; [by apply kpi_section_ok|by eapply kpis_at_most_four].
Qed.

Lemma kpi_cards_one_per_column_witness :
  kpi_section Plain.parsers 1000 five_cases
  = Out ((Body, Subheader (py "📊 Métricas Clave"))
           :: imap (fun i k => (Column i 4, Metric k))
                [total_kpi 5; duracion_kpi (frat 15) (fsqrt 50);
                 vencimientos_kpi 2; actuacion_kpi (py "A") 3])
        (Ok tt) /\
  (1 <= length [total_kpi 5; duracion_kpi (frat 15) (fsqrt 50);
                vencimientos_kpi 2; actuacion_kpi (py "A") 3] <= 4)%nat.
Proof.
  exact (kpi_cards_one_per_column Plain.parsers 1000 five_cases _
           five_cases_kpis).
Defined.

Lemma page_body_after_load P G env now log df0 :
  load_data P env = (log, Ok df0) ->
  page_body P G env now
  = Out ((fun m => (Body, Error m)) <$> log) (Ok tt) ≫= fun _ =>
    show Body (Title (py "📊 Dashboard Interactivo")) ≫= fun _ =>
    show Body (Subheader (py "Evolución Temporal")) ≫= fun _ =>
    timeline_section P G df0 ≫= fun df =>
    kpi_section P now df ≫= fun _ => detail_section G df.
Proof.
  intros Hload. unfold page_body, run_load_data. by rewrite Hload.
Qed.

Lemma try_csv_raise P env f rest e :
  csv_files env = f :: rest ->
  (read_csv env f ≫= normalise P) = Raise e ->
  load_data P env
  = ([py "Error al cargar el archivo: " ++ exn_str e], Ok empty_frame).
Proof.
  intros Hcsv Hr. unfold load_data, try_csv. rewrite Hcsv.
  destruct (read_csv env f) as [raw|e']; simpl in *; [|by simplify_eq].
  unfold mbind, result_bind in Hr. by rewrite Hr.
Qed.

Lemma timeline_absent P G df :
  contains df Fecha_Limite = false ->
  timeline_section P G df = Out [] (Ok df).
Proof.
  intros Hc. unfold timeline_section. rewrite Hc. by rewrite ret_bind.
Qed.

Lemma kpis_of_empty_frame P now :
  get_kpi_metrics P now empty_frame = Ok [total_kpi 0].
Proof. by rewrite get_kpi_metrics_blocks. Qed.

Lemma detail_without_text G df :
  select_dtypes_object df = [] ->
  detail_section G df
  = Out [(Body, Subheader (py "Análisis Detallado"))] (Ok tt).
Proof.
  intros Hnone. unfold detail_section. rewrite Hnone, show_bind.
  unfold when_column. cbn [lookup list_lookup]. by rewrite !ret_bind.
Qed.

(** X17.  When the CSV file cannot be read or normalised, the page is
    not cut short: it shows the loader's message, then the title and the
    three section headings, with one card, "Total de Casos" at 0, and no
    chart or table; the handler of the script is not reached. *)
Theorem page_on_csv_failure (P : Parsers) (G : Plotly) (env : Env)
    (now : Z) (f : pystr) (rest : list pystr) (e : exn) :
  csv_files env = f :: rest ->
  (read_csv env f ≫= normalise P) = Raise e ->
  page P G env now
  = [(Body, Error (py "Error al cargar el archivo: " ++ exn_str e));
     (Body, Title (py "📊 Dashboard Interactivo"));
     (Body, Subheader (py "Evolución Temporal"));
     (Body, Subheader (py "📊 Métricas Clave"));
     (Column 0 4, Metric (total_kpi 0));
     (Body, Subheader (py "Análisis Detallado"))].
Proof.
  intros Hcsv Hr. unfold page.
  rewrite (page_body_after_load P G env now _ _
             (try_csv_raise P env f rest e Hcsv Hr)).
  rewrite out_bind_Ok, !show_bind.
  rewrite (timeline_absent P G empty_frame eq_refl), out_bind_Ok.
  rewrite (kpi_section_ok P now empty_frame _ (kpis_of_empty_frame P now)).
  rewrite out_bind_Ok.
  by rewrite (detail_without_text G empty_frame eq_refl).
Qed.

Lemma page_on_csv_failure_witness :
  page Plain.parsers plotly_ok broken_csv_env 0
  = [(Body, Error (py "Error al cargar el archivo: " ++ exn_str decode_error));
     (Body, Title (py "📊 Dashboard Interactivo"));
     (Body, Subheader (py "Evolución Temporal"));
     (Body, Subheader (py "📊 Métricas Clave"));
     (Column 0 4, Metric (total_kpi 0));
     (Body, Subheader (py "Análisis Detallado"))].
Proof.
  apply (page_on_csv_failure Plain.parsers plotly_ok broken_csv_env 0
           (py "data/casos.csv") [] decode_error).
  - reflexivity.
  - reflexivity.
Defined.

(** X18.  With no CSV file and a JSON file that fails to load, the
    exception leaves [load_data] and reaches the handler of the script:
    the page shows the error message and the hint and nothing else, not
    even the title. *)
Theorem page_on_json_failure (P : Parsers) (G : Plotly) (env : Env)
    (now : Z) (f : pystr) (rest : list pystr) (e : exn) :
  csv_files env = [] ->
  json_files env = f :: rest ->
  read_json env f = Raise e ->
  page P G env now = handler e /\
  handler e
  = [(Body, Error (py "Error al cargar o procesar los datos: " ++ exn_str e));
     (Body, Info (py "Por favor, asegúrese de tener archivos de datos (.csv o .json) en la carpeta 'data/'"))].
Proof.
  intros Hcsv Hjson Hr. split; [|reflexivity].
  unfold page, page_body, run_load_data, load_data, try_csv.
  by rewrite Hcsv, Hjson, Hr.
Qed.

Lemma page_on_json_failure_witness :
  page Plain.parsers plotly_ok broken_json_env 0 = handler decode_error /\
  handler decode_error
  = [(Body, Error (py "Error al cargar o procesar los datos: "
                     ++ exn_str decode_error));
     (Body, Info (py "Por favor, asegúrese de tener archivos de datos (.csv o .json) en la carpeta 'data/'"))].
Proof.
  apply (page_on_json_failure Plain.parsers plotly_ok broken_json_env 0
           (py "data/casos.json") [] decode_error).
  - reflexivity.
  - reflexivity.
  - reflexivity.
Defined.

Lemma convert_all_fail {A B : Type} (f : A -> option B)
    (xs : list (option A)) (t : A) :
  Some t ∈ xs -> f t = None -> convert_all f xs = None.
Proof.
  intros Hin Hf. induction xs as [|c xs IH]; [by apply elem_of_nil in Hin|].
  apply elem_of_cons in Hin as [<-|Hin]; simpl.
  - by rewrite Hf.
  - rewrite (IH Hin). destruct c as [a|]; [|done]. by destruct (f a).
Qed.

Lemma timeline_unparseable P G df xs t :
  getitem df Fecha_Limite = Ok (ItemSeries (ObjSeries xs)) ->
  Some t ∈ xs ->
  parse_datetime P t = None ->
  timeline_section P G df
  = Out [] (Raise (Exn ValueError (py "Unknown datetime string format"))).
Proof.
  intros Hget Hin Hparse. unfold timeline_section.
  rewrite (proj2 (contains_true df Fecha_Limite)) by (by eexists).
  rewrite Hget, call_bind. unfold to_datetime_raise.
  by rewrite (convert_all_fail _ xs t Hin Hparse).
Qed.

(** X19.  The page converts the deadlines again, strictly (line 160).  On
    a frame whose [Fecha Límite] column is text with a cell that is not a
    date, as a JSON file can give, the conversion raises: the page shows
    the title and the first heading and then the message of the handler,
    and none of the charts, cards or tables. *)
Theorem page_on_unparseable_deadline (P : Parsers) (G : Plotly) (env : Env)
    (now : Z) (log : list pystr) (df : DataFrame)
    (xs : list (option pystr)) (t : pystr) :
  load_data P env = (log, Ok df) ->
  getitem df Fecha_Limite = Ok (ItemSeries (ObjSeries xs)) ->
  Some t ∈ xs ->
  parse_datetime P t = None ->
  exists e,
    exn_class_of e = ValueError /\
    page P G env now
    = ((fun m => (Body, Error m)) <$> log)
        ++ [(Body, Title (py "📊 Dashboard Interactivo"));
            (Body, Subheader (py "Evolución Temporal"))]
        ++ handler e.
Proof.
  intros Hload Hget Hin Hparse.
  exists (Exn ValueError (py "Unknown datetime string format")).
  split; [done|]. unfold page.
  rewrite (page_body_after_load P G env now _ _ Hload).
  rewrite out_bind_Ok, !show_bind.
  rewrite (timeline_unparseable P G df xs t Hget Hin Hparse).
  rewrite out_bind_Raise. cbn [shown outcome].
  by rewrite <-app_assoc.
Qed.

Lemma page_on_unparseable_deadline_witness :
  exists e,
    exn_class_of e = ValueError /\
    page Plain.parsers plotly_ok plazos_env 0
    = ((fun m => (Body, Error m)) <$> [])
        ++ [(Body, Title (py "📊 Dashboard Interactivo"));
            (Body, Subheader (py "Evolución Temporal"))]
        ++ handler e.
Proof.
  apply (page_on_unparseable_deadline Plain.parsers plotly_ok plazos_env 0
           [] plazos_json [Some (py "30"); Some (py "pronto")]
           (py "pronto")).
  - reflexivity.
  - reflexivity.
  - apply list_elem_of_further, list_elem_of_here.
  - by vm_compute.
Defined.

(** X20.  An exception of [get_kpi_metrics] is caught by the handler of
    the script: what the load and the timeline section have shown stays,
    followed by the heading of the cards and the two messages of the
    handler; no card is shown and the detail section is not started. *)
Theorem page_on_kpi_failure (P : Parsers) (G : Plotly) (env : Env)
    (now : Z) (log : list pystr) (df0 df : DataFrame)
    (pre : list (Place * Shown)) (e : exn) :
  load_data P env = (log, Ok df0) ->
  timeline_section P G df0 = Out pre (Ok df) ->
  get_kpi_metrics P now df = Raise e ->
  page P G env now
  = ((fun m => (Body, Error m)) <$> log)
      ++ [(Body, Title (py "📊 Dashboard Interactivo"));
          (Body, Subheader (py "Evolución Temporal"))]
      ++ pre
      ++ [(Body, Subheader (py "📊 Métricas Clave"))]
      ++ handler e.
Proof.
  intros Hload Htl Hk. unfold page.
  rewrite (page_body_after_load P G env now _ _ Hload).
  rewrite out_bind_Ok, !show_bind, Htl, out_bind_Ok.
  rewrite (kpi_section_raise P now df e Hk), out_bind_Raise.
  cbn [shown outcome]. rewrite <-app_assoc. f_equal. cbn [app].
  do 2 f_equal. by rewrite <-app_assoc.
Qed.

Lemma header_only_timeline :
  timeline_section Plain.parsers plotly_ok
    {| index := [];
       columns := [(Fecha_Limite, DateSeries []); (Actuacion, ObjSeries [])] |}
  = Out [] (Ok {| index := [];
                  columns := [(Fecha_Limite, DateSeries []);
                              (Actuacion, ObjSeries [])] |}).
Proof. by vm_compute. Qed.

Lemma header_only_kpis :
  get_kpi_metrics Plain.parsers 0
    {| index := [];
       columns := [(Fecha_Limite, DateSeries []); (Actuacion, ObjSeries [])] |}
  = Raise (Exn IndexError (py "single positional indexer is out-of-bounds")).
Proof. by vm_compute. Qed.

Lemma page_on_kpi_failure_witness :
  page Plain.parsers plotly_ok header_only_env 0
  = ((fun m => (Body, Error m)) <$> [])
      ++ [(Body, Title (py "📊 Dashboard Interactivo"));
          (Body, Subheader (py "Evolución Temporal"))]
      ++ []
      ++ [(Body, Subheader (py "📊 Métricas Clave"))]
      ++ handler
           (Exn IndexError (py "single positional indexer is out-of-bounds")).
Proof.
  exact (page_on_kpi_failure Plain.parsers plotly_ok header_only_env 0 [] _ _
           [] _ header_only_loads header_only_timeline header_only_kpis).
Defined.

Lemma pie_counts_text (vc : list (pystr * nat)) :
  pie_counts (map_fst LStr vc)
  = map_fst LStr
      (take 5 vc
         ++ (if (5 <? length vc)%nat
             then [(py "Otros", sum_list (drop 5 vc).*2)] else [])).
Proof.
  unfold pie_counts, map_fst. rewrite length_fmap, fmap_app, fmap_take.
  f_equal. destruct (5 <? length vc)%nat; [|done]. csimpl. do 3 f_equal.
  rewrite <-fmap_drop, <-list_fmap_compose. by apply list_fmap_ext.
Qed.

Lemma pie_section_text G pl df n ys :
  getitem df n = Ok (ItemSeries (ObjSeries ys)) ->
  pie_section G pl df n
  = match plot_pie G (map_fst LStr (final_counts ys)) (py "Top 5 - " ++ n) with
    | Ok _ =>
      Out [(pl, Pie (map_fst LStr (final_counts ys)) (py "Top 5 - " ++ n))]
          (Ok tt)
    | Raise e => Out [] (Raise e)
    end.
Proof.
  intros Hget. unfold pie_section. rewrite Hget, call_bind.
  cbn [series_value_counts]. rewrite call_bind, pie_counts_text.
  fold (final_counts ys).
  by destruct (plot_pie G _ _) as [[]|e].
Qed.

Lemma bar_section_text pl df n ys :
  getitem df n = Ok (ItemSeries (ObjSeries ys)) ->
  bar_section pl df n
  = Out [(pl, Text (py "### Conteo de " ++ n));
         (pl, CountFrame (map_fst LStr (bar_counts ys)))] (Ok tt).
Proof.
  intros Hget. unfold bar_section. rewrite show_bind, Hget, call_bind.
  cbn [fillna_item series_value_counts]. by rewrite call_bind.
Qed.


Lemma map_fst_snd {A B C : Type} (f : A -> B) (l : list (A * C)) :
  (map_fst f l).*2 = l.*2.
Proof.
  unfold map_fst. rewrite <-list_fmap_compose. by apply list_fmap_ext.
Qed.

(** X21.  The pie drawn for a text column is the aggregation
    [final_counts] of its cells under the title "Top 5 - " and the label
    of the column, so its counts add up to the number of cells that are
    not missing; if plotly raises while the figure is built, nothing is
    shown for the column and the exception goes on. *)
Theorem pie_shows_final_counts (G : Plotly) (pl : Place) (df : DataFrame)
    (n : pystr) (ys : list (option pystr)) :
  getitem df n = Ok (ItemSeries (ObjSeries ys)) ->
  let data := map_fst LStr (final_counts ys) in
  let title := py "Top 5 - " ++ n in
  sum_list data.*2 = notna_count ys /\
  (plot_pie G data title = Ok tt ->
     pie_section G pl df n = Out [(pl, Pie data title)] (Ok tt)) /\
  (forall e, plot_pie G data title = Raise e ->
     pie_section G pl df n = Out [] (Raise e)).
Proof.
  intros Hget data title. split; [|split].
  - unfold data. by rewrite map_fst_snd, final_counts_sum.
  - intros Hplot. rewrite (pie_section_text G pl df n ys Hget).
    fold data title. by rewrite Hplot.
  - intros e Hplot. rewrite (pie_section_text G pl df n ys Hget).
    fold data title. by rewrite Hplot.
Qed.

Lemma pie_shows_final_counts_witness :
  let data := map_fst LStr (final_counts actions_AABCA) in
  let title := py "Top 5 - " ++ Actuacion in
  sum_list data.*2 = notna_count actions_AABCA /\
  (plot_pie plotly_ok data title = Ok tt ->
     pie_section plotly_ok (Column 0 2) five_cases Actuacion
     = Out [(Column 0 2, Pie data title)] (Ok tt)) /\
  (forall e, plot_pie plotly_ok data title = Raise e ->
     pie_section plotly_ok (Column 0 2) five_cases Actuacion
     = Out [] (Raise e)).
Proof.
  apply (pie_shows_final_counts plotly_ok (Column 0 2) five_cases Actuacion
           actions_AABCA).
  reflexivity.
Defined.

(** X22.  The count table of the first text column shows a heading and
    one row per distinct value after the fill with "No especificado"; on a
    well-formed frame its counts add up to the number of rows, so no row
    is left out of the table. *)
Theorem bar_section_counts_every_row (pl : Place) (df : DataFrame)
    (n : pystr) (ys : list (option pystr)) :
  wf df ->
  getitem df n = Ok (ItemSeries (ObjSeries ys)) ->
  bar_section pl df n
  = Out [(pl, Text (py "### Conteo de " ++ n));
         (pl, CountFrame (map_fst LStr (bar_counts ys)))] (Ok tt) /\
  sum_list (map_fst LStr (bar_counts ys)).*2 = len df.
Proof.
  intros Hwf Hget. split; [by apply bar_section_text|].
  rewrite map_fst_snd. unfold bar_counts.
  rewrite value_counts_sum, all_some_count, length_fmap.
  - apply (wf_getitem df n _ Hwf Hget).
  - apply Forall_fmap, Forall_forall. intros c _. by eexists.
Qed.

Lemma bar_section_counts_every_row_witness :
  bar_section (Column 0 2) five_cases Actuacion
  = Out [(Column 0 2, Text (py "### Conteo de " ++ Actuacion));
         (Column 0 2, CountFrame (map_fst LStr (bar_counts actions_AABCA)))]
        (Ok tt) /\
  sum_list (map_fst LStr (bar_counts actions_AABCA)).*2 = len five_cases.
Proof.
  apply (bar_section_counts_every_row (Column 0 2) five_cases Actuacion
           actions_AABCA five_cases_wf).
  reflexivity.
Defined.







Example fmt2_examples :
  Fmt2.fmt2 (frat 15) = py "15.00" /\
  Fmt2.fmt2 (frat (1 # 8)) = py "0.12" /\
  Fmt2.fmt2 (frat (-7 # 2)) = py "-3.50" /\
  Fmt2.fmt2 fnan = py "nan".
Proof. by vm_compute. Qed.




(** X25.  Blanks around the labels of the header make no difference to
    the load: a file and the same file with its labels already stripped
    normalise to the same frame, or fail alike. *)
Theorem header_padding_irrelevant (P : Parsers) (raw : DataFrame) :
  normalise P (strip_columns raw) = normalise P raw.
Proof.
  unfold normalise.
  assert (strip_columns (strip_columns raw) = strip_columns raw) as ->;
    [|done].
  unfold strip_columns. simpl. f_equal.
  rewrite <-list_fmap_compose. apply list_fmap_ext.
  intros _ [n s] _. simpl. by rewrite strip_idemp.
Qed.
